(** * AI Study Buddy: the request handlers of [main.py], embedded and verified

    The service keeps uploaded lecture material in a module-level dictionary
    [lecture_materials] and forwards prompts to a generative model.  This
    file embeds the handlers of [main.py] as functions in a small
    state-and-exception monad over that dictionary, together with the Python
    string operations they rely on ([str.strip], [str.replace],
    [str.startswith], [str.endswith], slicing), and proves the properties
    the specification states about them.

    Python [str] values are embedded as [string]; a character stands for
    its code point.  Collaborators that live outside the repository (the
    PDF text extractor, the generative client, [json.loads], [str(e)] on a
    foreign exception) are variables of the section [Service]. *)

From Stdlib Require Import ZArith Ascii String DecimalString.
From stdpp Require Import gmap strings list.

Local Open Scope Z_scope.
Set Warnings "-register-all".

(** ** Python string operations *)

Module PyStr.

(** [c.isspace()] on the code points a character can hold: the ASCII
    white space 0x09-0x0D, 0x1C-0x1F, 0x20 and the Latin-1 ones 0x85, 0xA0. *)
Definition isspace (c : ascii) : bool :=
  let n := N_of_ascii c in
  ((9 <=? n) && (n <=? 13) || (28 <=? n) && (n <=? 32)
   || (n =? 133) || (n =? 160))%N.

(** [s.lstrip()] *)
Fixpoint lstrip (s : string) : string :=
  match s with
  | EmptyString => EmptyString
  | String c s' => if isspace c then lstrip s' else s
  end.

(** [s.rstrip()] *)
Fixpoint rstrip (s : string) : string :=
  match s with
  | EmptyString => EmptyString
  | String c s' =>
      match rstrip s' with
      | EmptyString => if isspace c then EmptyString else String c EmptyString
      | r => String c r
      end
  end.

(** [s.strip()] *)
Definition strip (s : string) : string := rstrip (lstrip s).

(** [bool(s)]: a string is truthy when it is not empty. *)
Definition truthy (s : string) : bool :=
  match s with EmptyString => false | String _ _ => true end.

(** [s.startswith(p)] *)
Definition startswith (s p : string) : bool := String.prefix p s.

(** [s.endswith(p)] *)
Fixpoint endswith (s p : string) : bool :=
  String.eqb s p
  || match s with
     | EmptyString => false
     | String _ s' => endswith s' p
     end.

(** [s[:n]] for a non-negative literal [n] *)
Fixpoint slice_to (n : nat) (s : string) : string :=
  match n, s with
  | S n', String c s' => String c (slice_to n' s')
  | _, _ => EmptyString
  end.

(** [s.find(sub)], with [None] for Python's -1 *)
Fixpoint find (s sub : string) : option nat :=
  match s with
  | EmptyString => if startswith s sub then Some 0%nat else None
  | String _ s' =>
      if startswith s sub then Some 0%nat else S <$> find s' sub
  end.

(** The scan of [s.replace(old, new)] for a non-empty [old]: left to
    right, every occurrence that does not overlap an earlier one is
    replaced.  [skip] counts the characters of the current occurrence
    that are still to be passed over. *)
Fixpoint replace_scan (old new : string) (skip : nat) (s : string) : string :=
  match s with
  | EmptyString => EmptyString
  | String c s' =>
      match skip with
      | S k => replace_scan old new k s'
      | O =>
          if startswith s old
          then new +:+ replace_scan old new (String.length old - 1) s'
          else String c (replace_scan old new 0 s')
      end
  end.

(** With an empty [old], Python puts [new] before every character and at
    the end. *)
Fixpoint replace_empty (new s : string) : string :=
  match s with
  | EmptyString => new
  | String c s' => new +:+ String c (replace_empty new s')
  end.

(** [s.replace(old, new)] *)
Definition replace (s old new : string) : string :=
  match old with
  | EmptyString => replace_empty new s
  | String _ _ => replace_scan old new 0 s
  end.

(** [str(n)] for an [int] *)
Definition str_int (n : Z) : string := NilZero.string_of_int (Z.to_int n).

End PyStr.

(** ** Values, exceptions and the handler monad *)

(** The floats that are no numbers of JSON; [json.loads] gives them for
    [NaN], [Infinity], [-Infinity] and for a literal too large for a
    [float], such as [1e999]. *)
Inductive nonfinite : Type := NaN | Infinity | MinusInfinity.

(** The Python values that travel through the handlers as JSON: what
    [json.loads] returns and what [JSONResponse] is given.  [JNull] is
    Python's [None]; a [dict] is the list of its items in insertion order;
    a [float] is the finite number [mantissa * 2 ^ exponent] or one of the
    three that are not finite. *)
Inductive json : Type :=
| JNull
| JBool (b : bool)
| JInt (n : Z)
| JFloat (mantissa exponent : Z)
| JNonFinite (f : nonfinite)
| JStr (s : string)
| JArr (items : list json)
| JObj (items : list (string * json)).

(** What [JSONResponse] can render: it calls [json.dumps] with
    [allow_nan=False], which refuses a float that is not finite wherever it
    stands in the content. *)
Fixpoint renderable (v : json) : bool :=
  match v with
  | JNonFinite _ => false
  | JArr items => forallb renderable items
  | JObj items => forallb (fun item => match item with (_, value) => renderable value end) items
  | _ => true
  end.


(** [None] or a [str], as a JSON value *)
Definition json_of_optional_str (o : option string) : json :=
  match o with
  | None => JNull
  | Some s => JStr s
  end.

(** [v is not None] *)
Definition is_not_None (v : json) : bool :=
  match v with
  | JNull => false
  | _ => true
  end.

(** The exceptions that reach a handler: the [HTTPException] the handlers
    raise themselves, the [KeyError] of a failed dictionary subscript, and
    whatever a collaborator raises. *)
Inductive exn : Type :=
| HTTPException (status_code : Z) (detail : string)
| KeyError (key : string)
| Error (message : string).

(** What [json.loads] comes to: a value, the [json.JSONDecodeError] that
    [generate_quiz] catches, or another exception (a [RecursionError] for
    deep nesting, a plain [ValueError] for an integer literal of too many
    digits). *)
Inductive decoding : Type :=
| Decoded (value : json)
| JSONDecodeError
| OtherError (e : exn).

(** One entry of [lecture_materials]: the dictionary with the keys
    ["filename"], ["content"], ["notes"] and ["quiz"]. *)
Module Material.
Record t : Type := mk {
  filename : string;
  content : string;
  notes : option string;
  quiz : json
}.

(** [material["notes"] = v] *)
Definition set_notes (v : string) (m : t) : t :=
  mk (filename m) (content m) (Some v) (quiz m).

(** [material["quiz"] = v] *)
Definition set_quiz (v : json) (m : t) : t :=
  mk (filename m) (content m) (notes m) v.
End Material.

(** The process state the handlers share: the module-level dictionary
    [lecture_materials], and the prompts handed to
    [model.generate_content] so far, newest first. *)
Record World : Type := mkWorld {
  lecture_materials : gmap string Material.t;
  prompts_sent : list string
}.

Definition initial_world : World := mkWorld ∅ [].

Inductive outcome (A : Type) : Type :=
| Return (a : A)
| Raise (e : exn).
Arguments Return {A} a.
Arguments Raise {A} e.

(** A handler fragment: it runs in a world and either returns or raises,
    leaving the world it has reached. *)
Definition M (A : Type) : Type := World -> outcome A * World.

Definition ret {A} (a : A) : M A := fun w => (Return a, w).

Definition raise {A} (e : exn) : M A := fun w => (Raise e, w).

Definition bind {A B} (m : M A) (k : A -> M B) : M B :=
  fun w =>
    match m w with
    | (Return a, w') => k a w'
    | (Raise e, w') => (Raise e, w')
    end.

(** [try: body except Exception as e: handler(e)]; what the body did to
    the world before it raised stays done. *)
Definition try_except {A} (body : M A) (handler : exn -> M A) : M A :=
  fun w =>
    match body w with
    | (Return a, w') => (Return a, w')
    | (Raise e, w') => handler e w'
    end.

(** The outcome of a call into a collaborator, brought into the monad. *)
Definition lift {A} (r : exn + A) : M A :=
  match r with
  | inl e => raise e
  | inr a => ret a
  end.

(** [JSONResponse(content)]: the content is rendered when the response is
    made, and a content that cannot be rendered raises the [ValueError] of
    [json.dumps]. *)
Definition out_of_range : exn :=
  Error "Out of range float values are not JSON compliant".

Definition JSONResponse (content : json) : M json :=
  if renderable content then ret content else raise out_of_range.

Declare Scope py_scope.
Delimit Scope py_scope with py.
Notation "x <- m ;; k" := (bind m (fun x => k))
  (at level 100, m at next level, right associativity) : py_scope.
Notation "m ;; k" := (bind m (fun _ => k))
  (at level 100, right associativity) : py_scope.
Local Open Scope py_scope.

(** [key in lecture_materials] *)
Definition contains (key : string) : M bool :=
  fun w => (Return (bool_decide (is_Some (lecture_materials w !! key))), w).

(** [lecture_materials[key]] *)
Definition getitem (key : string) : M Material.t :=
  fun w =>
    match lecture_materials w !! key with
    | Some m => (Return m, w)
    | None => (Raise (KeyError key), w)
    end.

(** [lecture_materials[key] = m] *)
Definition setitem (key : string) (m : Material.t) : M unit :=
  fun w => (Return tt, mkWorld (<[key := m]> (lecture_materials w)) (prompts_sent w)).

(** [lecture_materials[key][field] = v]: the entry is looked up, then its
    field is assigned. *)
Definition setfield (key : string) (assign : Material.t -> Material.t) : M unit :=
  m <- getitem key ;;
  setitem key (assign m).

(** [lecture_materials.items()]; the entries come in the order of
    [map_to_list], where Python gives the order of insertion. *)
Definition items : M (list (string * Material.t)) :=
  fun w => (Return (map_to_list (lecture_materials w)), w).

(** ** Request models *)

Module UploadFile.
(** The [UploadFile] of a request: its name and the bytes [file.read()]
    gives. *)
Record t : Type := mk {
  filename : string;
  read : list Byte.byte
}.
End UploadFile.

Module ChatRequest.
Record t : Type := mk {
  message : string;
  material_id : option string
}.
End ChatRequest.

Module QuizRequest.
Record t : Type := mk {
  material_id : string;
  num_questions : Z
}.
End QuizRequest.

(** ** Prompts *)

Import PyStr.

(** The line feed and the double quote *)
Definition nl : string := String "010" EmptyString.
Definition dq : string := String "034" EmptyString.

(** The f-string of [generate_notes] *)
Definition notes_prompt (content : string) : string :=
  "Based on the following lecture material, create comprehensive study notes. 
        Include:
        - Key concepts and definitions
        - Main topics covered
        - Important points to remember
        - Summary of each section
        
        Lecture Material:
        "
  +:+ slice_to 4000 content +:+
  "
        
        Please format the notes in a clear, structured markdown format.".

(** The f-string of [generate_quiz] *)
Definition quiz_prompt (num_questions : Z) (content : string) : string :=
  "Based on the following lecture material, create a quiz with "
  +:+ str_int num_questions +:+
  " multiple-choice questions.

        For each question, provide:
        1. The question text
        2. Four answer options (A, B, C, D)
        3. The correct answer
        4. A brief explanation
        
        Format the output as a JSON array with this structure:
        [
            {
                " +:+ dq +:+ "question" +:+ dq +:+ ": " +:+ dq +:+ "Question text here?" +:+ dq +:+ ",
                " +:+ dq +:+ "options" +:+ dq +:+ ": [" +:+ dq +:+ "A) Option 1" +:+ dq +:+ ", " +:+ dq +:+ "B) Option 2" +:+ dq +:+ ", " +:+ dq +:+ "C) Option 3" +:+ dq +:+ ", " +:+ dq +:+ "D) Option 4" +:+ dq +:+ "],
                " +:+ dq +:+ "correct_answer" +:+ dq +:+ ": " +:+ dq +:+ "A" +:+ dq +:+ ",
                " +:+ dq +:+ "explanation" +:+ dq +:+ ": " +:+ dq +:+ "Explanation here" +:+ dq +:+ "
            }
        ]
        
        Lecture Material:
        "
  +:+ slice_to 4000 content +:+
  "
        
        Return only valid JSON without any markdown formatting or code blocks.".

(** The context of [chat_with_tutor] when the material is found *)
Definition material_context (content : string) : string :=
  "You are an AI tutor helping a student understand the following lecture material:

"
  +:+ slice_to 3000 content +:+
  "

Based on this lecture material, answer the student's question in a helpful, educational manner.".

(** The f-string of [chat_with_tutor] *)
Definition chat_prompt (context message : string) : string :=
  context +:+
  "

Student's question: "
  +:+ message +:+
  "

Please provide a clear, helpful answer.".

(** The context of [chat_with_tutor] without material *)
Definition generic_context : string :=
  "You are an AI tutor. Help the student with their question in a clear and educational manner.".

(** ** Quiz post-processing *)

Definition fence : string := "```".
Definition json_fence : string := "```json".

(** Lines 174-177 of [generate_quiz]: what is done to the stripped response
    text before it is parsed. *)
Definition clean_quiz_text (quiz_text : string) : string :=
  if startswith quiz_text json_fence
  then strip (replace (replace quiz_text json_fence "") fence "")
  else if startswith quiz_text fence
  then strip (replace quiz_text fence "")
  else quiz_text.

(** Line 75 of [upload_pdf]: the key under which an upload is stored. *)
Definition derive_material_id (filename : string) : string :=
  replace (replace filename ".pdf" "") " " "_".

(** ** The handlers *)

Section Service.

(** The module global [model]: [None] when no API key is configured, else
    the client; [client prompt] is what [model.generate_content(prompt).text]
    comes to, a text or an exception. *)
Variable model : option (string -> exn + string).

(** [json.loads] as a function of the text *)
Variable json_loads : string -> decoding.

(** [PyPDF2.PdfReader(io.BytesIO(bytes)).pages], each page with what its
    [extract_text()] comes to. *)
Variable PdfReader : list Byte.byte -> exn + list (exn + string).

(** [str(e)] *)
Variable str : exn -> string.

(** [model.generate_content(prompt).text] *)
Definition generate_content (client : string -> exn + string) (prompt : string) : M string :=
  fun w => (match client prompt with
            | inl e => Raise e
            | inr text => Return text
            end,
            mkWorld (lecture_materials w) (prompt :: prompts_sent w)).

(** The loop of [upload_pdf] over the pages *)
Fixpoint extract_pages (pages : list (exn + string)) (text_content : string) : M string :=
  match pages with
  | [] => ret text_content
  | page :: rest =>
      page_text <- lift page ;;
      extract_pages rest (text_content +:+ (page_text +:+ nl))
  end.

(** [POST /api/upload] *)
Definition upload_pdf (file : UploadFile.t) : M json :=
  if negb (endswith (UploadFile.filename file) ".pdf")
  then raise (HTTPException 400 "Only PDF files are allowed")
  else
    try_except
      (pages <- lift (PdfReader (UploadFile.read file)) ;;
       text_content <- extract_pages pages "" ;;
       if negb (truthy (strip text_content))
       then raise (HTTPException 400 "No text content found in PDF")
       else
         let material_id := derive_material_id (UploadFile.filename file) in
         setitem material_id
           (Material.mk (UploadFile.filename file) text_content None JNull) ;;
         JSONResponse (JObj [("status", JStr "success");
                             ("message", JStr "PDF uploaded successfully");
                             ("material_id", JStr material_id);
                             ("filename", JStr (UploadFile.filename file))]))
      (fun e => raise (HTTPException 500 ("Error processing PDF: " +:+ str e))).

(** [POST /api/generate-notes] *)
Definition generate_notes (material_id : string) : M json :=
  present <- contains material_id ;;
  if negb present
  then raise (HTTPException 404 "Material not found")
  else
    match model with
    | None => raise (HTTPException 500 "Gemini API not configured")
    | Some client =>
        try_except
          (material <- getitem material_id ;;
           let prompt := notes_prompt (Material.content material) in
           notes <- generate_content client prompt ;;
           setfield material_id (Material.set_notes notes) ;;
           JSONResponse (JObj [("status", JStr "success"); ("notes", JStr notes)]))
          (fun e => raise (HTTPException 500 ("Error generating notes: " +:+ str e)))
    end.

(** [POST /api/generate-quiz] *)
Definition generate_quiz (request : QuizRequest.t) : M json :=
  present <- contains (QuizRequest.material_id request) ;;
  if negb present
  then raise (HTTPException 404 "Material not found")
  else
    match model with
    | None => raise (HTTPException 500 "Gemini API not configured")
    | Some client =>
        try_except
          (material <- getitem (QuizRequest.material_id request) ;;
           let prompt :=
             quiz_prompt (QuizRequest.num_questions request) (Material.content material) in
           text <- generate_content client prompt ;;
           let quiz_text := clean_quiz_text (strip text) in
           quiz <- match json_loads quiz_text with
                   | Decoded parsed => ret parsed
                   | JSONDecodeError => ret (JObj [("raw_text", JStr quiz_text)])
                   | OtherError e => raise e
                   end ;;
           setfield (QuizRequest.material_id request) (Material.set_quiz quiz) ;;
           JSONResponse (JObj [("status", JStr "success"); ("quiz", quiz)]))
          (fun e => raise (HTTPException 500 ("Error generating quiz: " +:+ str e)))
    end.

(** Lines 204-213 of [chat_with_tutor]: the context for the prompt *)
Definition chat_context (material_id : option string) : M string :=
  match material_id with
  | Some id =>
      present <- contains id ;;
      if truthy id && present
      then
        material <- getitem id ;;
        ret (material_context (Material.content material))
      else ret generic_context
  | None => ret generic_context
  end.

(** [POST /api/chat] *)
Definition chat_with_tutor (request : ChatRequest.t) : M json :=
  match model with
  | None => raise (HTTPException 500 "Gemini API not configured")
  | Some client =>
      try_except
        (context <- chat_context (ChatRequest.material_id request) ;;
         let prompt := chat_prompt context (ChatRequest.message request) in
         answer <- generate_content client prompt ;;
         JSONResponse (JObj [("status", JStr "success"); ("response", JStr answer)]))
        (fun e => raise (HTTPException 500 ("Error chatting with tutor: " +:+ str e)))
  end.

(** One entry of the listing *)
Definition summary (item : string * Material.t) : json :=
  let (mat_id, mat_data) := item in
  JObj [("material_id", JStr mat_id);
        ("filename", JStr (Material.filename mat_data));
        ("has_notes", JBool (bool_decide (Material.notes mat_data <> None)));
        ("has_quiz", JBool (is_not_None (Material.quiz mat_data)))].

(** [GET /api/materials] *)
Definition list_materials : M json :=
  entries <- items ;;
  JSONResponse (JObj [("materials", JArr (summary <$> entries))]).

(** [GET /api/material/{material_id}] *)
Definition get_material (material_id : string) : M json :=
  present <- contains material_id ;;
  if negb present
  then raise (HTTPException 404 "Material not found")
  else
    material <- getitem material_id ;;
    JSONResponse
      (JObj [("material_id", JStr material_id);
             ("filename", JStr (Material.filename material));
             ("content_preview", JStr (slice_to 500 (Material.content material) +:+ "..."));
             ("notes", json_of_optional_str (Material.notes material));
             ("quiz", Material.quiz material)]).

(** The requests the service answers, and the handler of each *)
Inductive request : Type :=
| Upload (file : UploadFile.t)
| GenerateNotes (material_id : string)
| GenerateQuiz (req : QuizRequest.t)
| Chat (req : ChatRequest.t)
| ListMaterials
| GetMaterial (material_id : string).

Definition handle (r : request) : M json :=
  match r with
  | Upload file => upload_pdf file
  | GenerateNotes material_id => generate_notes material_id
  | GenerateQuiz req => generate_quiz req
  | Chat req => chat_with_tutor req
  | ListMaterials => list_materials
  | GetMaterial material_id => get_material material_id
  end.

End Service.

(** The worlds the service can be in: the one at start-up, and any world a
    handler leaves when run in one of them, whatever the collaborators do
    during that request. *)
Inductive reachable : World -> Prop :=
| reachable_initial : reachable initial_world
| reachable_handle model json_loads PdfReader str r w :
    reachable w -> reachable (handle model json_loads PdfReader str r w).2.

(** ** The specification's wording, as definitions *)

Module Spec.

(** [s.removesuffix(p)]: [s] without a trailing [p] when it has one *)
Fixpoint removesuffix (s p : string) : string :=
  if String.eqb s p then EmptyString
  else match s with
       | EmptyString => EmptyString
       | String c s' => String c (removesuffix s' p)
       end.

(** [s[n:]] for a non-negative [n] *)
Fixpoint slice_from (n : nat) (s : string) : string :=
  match n, s with
  | S n', String _ s' => slice_from n' s'
  | _, _ => s
  end.

(** [s.removeprefix(p)]: [s] without a leading [p] when it has one *)
Definition removeprefix (s p : string) : string :=
  if startswith s p then slice_from (String.length p) s else s.

(** Every space turned into an underscore, character by character *)
Fixpoint underscore_spaces (s : string) : string :=
  match s with
  | EmptyString => EmptyString
  | String c s' =>
      String (if Ascii.eqb c " " then "_"%char else c) (underscore_spaces s')
  end.

(** "removing the trailing .pdf literal from the filename and replacing
    spaces with underscores" *)
Definition material_id (filename : string) : string :=
  underscore_spaces (removesuffix filename ".pdf").

(** "strip a leading/trailing triple-backtick fence labeled json if
    present, else strip a bare triple-backtick fence if present" *)
Definition strip_fences (quiz_text : string) : string :=
  if startswith quiz_text json_fence
  then strip (removesuffix (removeprefix quiz_text json_fence) fence)
  else if startswith quiz_text fence
  then strip (removesuffix (removeprefix quiz_text fence) fence)
  else quiz_text.

(** "each page's extracted text followed by a newline", concatenated in
    the order of the pages *)
Fixpoint page_lines (texts : list string) : string :=
  match texts with
  | [] => EmptyString
  | t :: rest => t +:+ nl +:+ page_lines rest
  end.

(** "empty or consists only of whitespace" *)
Fixpoint all_whitespace (s : string) : bool :=
  match s with
  | EmptyString => true
  | String c s' => isspace c && all_whitespace s'
  end.

(** "a content string that is non-empty and not all-whitespace", for
    every record of the store *)
Definition content_present (w : World) : Prop :=
  forall id m,
    lecture_materials w !! id = Some m ->
    Material.content m <> EmptyString /\ all_whitespace (Material.content m) = false.

End Spec.

(** ** Sample collaborators, for running the handlers on concrete requests *)

Module Sample.

(** A reader that finds one page with the given text, whatever the bytes *)
Definition one_page (text : string) : list Byte.byte -> exn + list (exn + string) :=
  fun _ => inr [inr text].

(** A client that answers every prompt with the given text *)
Definition answering (text : string) : string -> exn + string :=
  fun _ => inr text.

(** [str(e)]: Starlette's rendering of an [HTTPException], the quoted key
    of a [KeyError], the message otherwise *)
Definition str (e : exn) : string :=
  match e with
  | HTTPException status_code detail => str_int status_code +:+ ": " +:+ detail
  | KeyError key => "'" +:+ key +:+ "'"
  | Error message => message
  end.

(** The value of [json.loads] on the texts used below; every other text
    is refused with [JSONDecodeError]. *)
Definition json_loads (text : string) : decoding :=
  if String.eqb text "[]" then Decoded (JArr [])
  else if String.eqb text ("[" +:+ dq +:+ "ab" +:+ dq +:+ "]")
  then Decoded (JArr [JStr "ab"])
  else if String.eqb text ("[" +:+ dq +:+ "a```b" +:+ dq +:+ "]")
  then Decoded (JArr [JStr "a```b"])
  else if String.eqb text "NaN" then Decoded (JNonFinite NaN)
  else if String.eqb text "[1e999]" then Decoded (JArr [JNonFinite Infinity])
  else JSONDecodeError.

Definition notes_file : UploadFile.t := UploadFile.mk "x.pdf" [].

(** The world after [x.pdf], one page reading [Hello world], was uploaded *)
Definition one_material : World :=
  mkWorld {[ "x" := Material.mk "x.pdf" ("Hello world" +:+ nl) None JNull ]} [].

End Sample.

(** ** The ways a request changes the dictionary *)

(** How one request may change the dictionary: not at all, by a new record
    whose text passed the check of [upload_pdf], or by a record that
    replaces one of the same content. *)
Inductive materials_step (w w' : World) : Prop :=
| step_same :
    lecture_materials w' = lecture_materials w -> materials_step w w'
| step_created id m :
    truthy (strip (Material.content m)) = true ->
    lecture_materials w' = <[id := m]> (lecture_materials w) ->
    materials_step w w'
| step_annotated id m m' :
    lecture_materials w !! id = Some m ->
    Material.content m' = Material.content m ->
    lecture_materials w' = <[id := m']> (lecture_materials w) ->
    materials_step w w'.

(** ** Further predicates on worlds and texts *)

(** Every record sits under the id derived from its own file name, and
    that name ends in [.pdf]. *)
Definition keyed_by_filename (w : World) : Prop :=
  forall id m,
    lecture_materials w !! id = Some m ->
    endswith (Material.filename m) ".pdf" = true
    /\ id = derive_material_id (Material.filename m).

(** No record has notes or a quiz, and no prompt went to a client. *)
Definition nothing_generated (w : World) : Prop :=
  prompts_sent w = []
  /\ forall id m,
       lecture_materials w !! id = Some m ->
       Material.notes m = None /\ Material.quiz m = JNull.

(** The worlds of a service that started without an API key: [model] is
    [None] at every request. *)
Inductive reachable_unconfigured : World -> Prop :=
| unconfigured_initial : reachable_unconfigured initial_world
| unconfigured_handle json_loads PdfReader str r w :
    reachable_unconfigured w ->
    reachable_unconfigured (handle None json_loads PdfReader str r w).2.


(** Concrete inputs for the further properties *)
Module Scenario.

(** [n] times the letter [a] *)
Fixpoint letters (n : nat) : string :=
  match n with
  | O => EmptyString
  | S n' => String "a" (letters n')
  end.

(** A reader that fails to open the file *)
Definition broken : list Byte.byte -> exn + list (exn + string) :=
  fun _ => inl (Error "EOF marker not found").

(** A client whose call raises *)
Definition failing : string -> exn + string :=
  fun _ => inl (Error "quota exceeded").

(** The world after [x.pdf] was uploaded and notes were generated for it *)
Definition with_notes : World :=
  mkWorld {[ "x" := Material.mk "x.pdf" ("Hello world" +:+ nl) (Some "old notes") JNull ]}
          [notes_prompt ("Hello world" +:+ nl)].

End Scenario.

(** * Properties *)

(** ** Facts about the string operations *)

Section StringFacts.

Implicit Types (s t p old new : string) (c : ascii).

Lemma app_cons c s t : String c s +:+ t = String c (s +:+ t).
Proof. reflexivity. Qed.

Lemma app_empty_l s : "" +:+ s = s.
Proof. reflexivity. Qed.

Lemma app_empty_r s : s +:+ "" = s.
Proof. induction s as [|c s IH]; [reflexivity|]. by rewrite app_cons, IH. Qed.

Lemma app_assoc s t p : (s +:+ t) +:+ p = s +:+ (t +:+ p).
Proof. induction s as [|c s IH]; [reflexivity|]. by rewrite !app_cons, IH. Qed.

Lemma length_app s t : String.length (s +:+ t) = (String.length s + String.length t)%nat.
Proof. induction s as [|c s IH]; [reflexivity|]. rewrite app_cons. simpl. by rewrite IH. Qed.

Lemma startswith_cons c s p :
  startswith (String c s) p =
  match p with
  | EmptyString => true
  | String d p' => if decide (d = c) then startswith s p' else false
  end.
Proof.
  unfold startswith. destruct p as [|d p']; [reflexivity|]. simpl.
  destruct (ascii_dec d c), (decide (d = c)); congruence.
Qed.

Lemma find_cons_None c s p :
  find (String c s) p = None -> startswith (String c s) p = false /\ find s p = None.
Proof.
  cbn [find]. destruct (startswith (String c s) p); [discriminate|].
  destruct (find s p); [discriminate|]. done.
Qed.

Lemma find_cons_Some_S c s p n :
  find (String c s) p = Some (S n) ->
  startswith (String c s) p = false /\ find s p = Some n.
Proof.
  cbn [find]. destruct (startswith (String c s) p); [discriminate|].
  destruct (find s p); simpl; [|discriminate]. intros [= ->]. done.
Qed.

(** Up to the first occurrence of [old], [replace] copies its input. *)
Lemma replace_scan_before old new s t :
  find (s +:+ t) old = Some (String.length s) ->
  replace_scan old new 0 (s +:+ t) = s +:+ replace_scan old new 0 t.
Proof.
  induction s as [|c s IH]; [reflexivity|].
  rewrite !app_cons. cbn [String.length]. intros [Hc Hs]%find_cons_Some_S.
  cbn [replace_scan]. rewrite Hc. f_equal. auto.
Qed.

(** Without an occurrence of [old], [replace] is the identity. *)
Lemma replace_scan_absent old new s :
  find s old = None -> replace_scan old new 0 s = s.
Proof.
  induction s as [|c s IH]; [reflexivity|].
  intros [Hc Hs]%find_cons_None. cbn [replace_scan]. rewrite Hc. f_equal. auto.
Qed.



Lemma startswith_empty s : startswith s "" = true.
Proof. by destruct s. Qed.

Lemma startswith_app_self p t : startswith (p +:+ t) p = true.
Proof.
  induction p as [|c p IH]; [apply startswith_empty|].
  rewrite app_cons, startswith_cons. by rewrite decide_True.
Qed.

Lemma replace_scan_skip old new s t :
  replace_scan old new (String.length s) (s +:+ t) = replace_scan old new 0 t.
Proof.
  induction s as [|c s IH]; [reflexivity|]. rewrite app_cons. exact IH.
Qed.

(** At an occurrence of [old], [replace] puts [new] and goes on behind it. *)
Lemma replace_scan_here old new t :
  old <> "" ->
  replace_scan old new 0 (old +:+ t) = new +:+ replace_scan old new 0 t.
Proof.
  destruct old as [|c old]; [done|intros _].
  rewrite app_cons. cbn [replace_scan]. rewrite <- app_cons, startswith_app_self.
  f_equal. cbn [String.length]. rewrite Nat.sub_1_r. cbn [Nat.pred].
  apply replace_scan_skip.
Qed.

Lemma replace_space_underscore s : replace s " " "_" = Spec.underscore_spaces s.
Proof.
  unfold replace. induction s as [|c s IH]; [reflexivity|].
  cbn [replace_scan Spec.underscore_spaces]. rewrite startswith_cons.
  destruct (decide (" "%char = c)) as [<-|Hc].
  - rewrite startswith_empty. cbn. by rewrite IH.
  - apply Ascii.eqb_neq in Hc. rewrite Ascii.eqb_sym, Hc. by rewrite IH.
Qed.

Lemma endswith_inv s p : endswith s p = true -> exists a, s = a +:+ p.
Proof.
  induction s as [|c s IH]; cbn [endswith]; intros H.
  - rewrite orb_false_r in H. apply String.eqb_eq in H. by exists "".
  - apply orb_true_iff in H as [H|H].
    + apply String.eqb_eq in H. by exists "".
    + destruct (IH H) as [a ->]. by exists (String c a).
Qed.

Lemma endswith_app a p : endswith (a +:+ p) p = true.
Proof.
  induction a as [|c a IH].
  - rewrite app_empty_l. destruct p; cbn [endswith]; by rewrite String.eqb_refl.
  - rewrite app_cons. cbn [endswith]. rewrite IH. apply orb_true_r.
Qed.

Lemma removesuffix_app a p : Spec.removesuffix (a +:+ p) p = a.
Proof.
  induction a as [|c a IH].
  - rewrite app_empty_l. destruct p; cbn [Spec.removesuffix]; by rewrite String.eqb_refl.
  - rewrite app_cons. cbn [Spec.removesuffix].
    destruct (String.eqb_spec (String c (a +:+ p)) p) as [E|_].
    + apply (f_equal String.length) in E. cbn [String.length] in E.
      rewrite length_app in E. lia.
    + by rewrite IH.
Qed.

(** *** Stripping white space *)

Lemma rstrip_app_space s c : isspace c = true -> rstrip (s +:+ String c "") = rstrip s.
Proof.
  intros Hc. induction s as [|d s IH].
  - rewrite app_empty_l. cbn [rstrip]. by rewrite Hc.
  - rewrite app_cons. cbn [rstrip]. by rewrite IH.
Qed.

Lemma strip_cons_space c s : isspace c = true -> strip (String c s) = strip s.
Proof. intros Hc. unfold strip. cbn [lstrip]. by rewrite Hc. Qed.

Lemma strip_app_space s c : isspace c = true -> strip (s +:+ String c "") = strip s.
Proof.
  intros Hc. induction s as [|d s IH].
  - rewrite app_empty_l. unfold strip. cbn [lstrip]. by rewrite Hc.
  - rewrite app_cons. unfold strip in *. cbn [lstrip]. destruct (isspace d); [exact IH|].
    rewrite <- app_cons. by apply rstrip_app_space.
Qed.

Lemma rstrip_cons_nonspace c s : isspace c = false -> rstrip (String c s) <> "".
Proof. intros Hc. cbn [rstrip]. destruct (rstrip s); by rewrite ?Hc. Qed.

(** A text that [rstrip] leaves alone protects whatever stands before it. *)
Lemma rstrip_app_kept s t : t <> "" -> rstrip t = t -> rstrip (s +:+ t) = s +:+ t.
Proof.
  intros Ht Hr. induction s as [|c s IH]; [by rewrite app_empty_l|].
  rewrite app_cons. cbn [rstrip]. rewrite IH.
  destruct (s +:+ t) eqn:E; [|done].
  destruct s; [rewrite app_empty_l in E; congruence | discriminate].
Qed.

Lemma lstrip_empty s : lstrip s = "" <-> Spec.all_whitespace s = true.
Proof.
  induction s as [|c s IH]; [done|].
  cbn [lstrip Spec.all_whitespace]. destruct (isspace c); [exact IH|done].
Qed.

Lemma lstrip_head s c t : lstrip s = String c t -> isspace c = false.
Proof.
  induction s as [|d s IH]; [done|]. cbn [lstrip].
  destruct (isspace d) eqn:Hd; [exact IH|]. by intros [= <- _].
Qed.

(** [not text.strip()] singles out the texts that are empty or white space
    only. *)
Lemma strip_falsy s : truthy (strip s) = false <-> Spec.all_whitespace s = true.
Proof.
  rewrite <- lstrip_empty. unfold strip. destruct (lstrip s) as [|c t] eqn:E; [done|].
  pose proof (rstrip_cons_nonspace c t (lstrip_head _ _ _ E)).
  destruct (rstrip (String c t)); [done|]. cbn. split; discriminate.
Qed.

Lemma strip_truthy s :
  truthy (strip s) = true -> s <> "" /\ Spec.all_whitespace s = false.
Proof.
  intros H. split; [by intros ->|].
  destruct (Spec.all_whitespace s) eqn:E; [|done].
  apply strip_falsy in E. congruence.
Qed.

(** *** Fences around a body that has none *)

Lemma fence_barrier s t :
  startswith (s +:+ nl +:+ t) fence = true -> startswith s fence = true.
Proof.
  unfold fence, nl.
  destruct s as [|c1 [|c2 [|c3 s]]];
    rewrite ?app_cons, ?app_empty_l, !startswith_cons;
    repeat case_decide; rewrite ?startswith_empty; done.
Qed.

Lemma json_fence_barrier s t :
  startswith (s +:+ nl +:+ t) json_fence = true -> startswith s fence = true.
Proof.
  unfold json_fence, fence, nl.
  destruct s as [|c1 [|c2 [|c3 s]]];
    rewrite ?app_cons, ?app_empty_l, !startswith_cons;
    repeat case_decide; rewrite ?startswith_empty; done.
Qed.

Lemma find_fence_behind s :
  find s fence = None -> find (s +:+ nl +:+ fence) fence = Some (S (String.length s)).
Proof.
  induction s as [|c s IH]; [reflexivity|].
  intros [Hc Hs]%find_cons_None. rewrite app_cons. cbn [find String.length].
  destruct (startswith (String c (s +:+ nl +:+ fence)) fence) eqn:E.
  - rewrite <- app_cons in E. apply fence_barrier in E. congruence.
  - by rewrite IH.
Qed.

Lemma find_json_fence_behind s :
  find s fence = None -> find (s +:+ nl +:+ fence) json_fence = None.
Proof.
  induction s as [|c s IH]; [reflexivity|].
  intros [Hc Hs]%find_cons_None. rewrite app_cons. cbn [find].
  destruct (startswith (String c (s +:+ nl +:+ fence)) json_fence) eqn:E.
  - rewrite <- app_cons in E. apply json_fence_barrier in E. congruence.
  - by rewrite IH.
Qed.

Lemma removeprefix_app p t : Spec.removeprefix (p +:+ t) p = t.
Proof.
  unfold Spec.removeprefix. rewrite startswith_app_self.
  induction p as [|c p IH]; [by destruct t|]. by rewrite app_cons.
Qed.

Lemma strip_fenced t : strip (json_fence +:+ t +:+ fence) = json_fence +:+ t +:+ fence.
Proof.
  unfold strip. change (lstrip (json_fence +:+ ?u)) with (json_fence +:+ u).
  rewrite <- !app_assoc. by apply rstrip_app_kept.
Qed.

(** Fences removed at the two ends only: what is between them stays. *)
Lemma strip_fences_fenced body :
  Spec.strip_fences (strip (json_fence +:+ nl +:+ body +:+ nl +:+ fence)) = strip body.
Proof.
  assert (json_fence +:+ nl +:+ body +:+ nl +:+ fence
          = json_fence +:+ (nl +:+ body +:+ nl) +:+ fence) as ->
    by by rewrite !app_assoc.
  rewrite strip_fenced. unfold Spec.strip_fences.
  rewrite startswith_app_self, removeprefix_app, removesuffix_app.
  rewrite <- app_assoc. unfold nl. rewrite strip_app_space by reflexivity.
  rewrite app_cons, app_empty_l. by rewrite strip_cons_space.
Qed.

(** The response [```json], line feed, [body], line feed, [```] is cleaned
    to the stripped body when the body holds no fence of its own. *)
Lemma clean_fenced body :
  find body fence = None ->
  clean_quiz_text (strip (json_fence +:+ nl +:+ body +:+ nl +:+ fence)) = strip body.
Proof.
  intros Hbody.
  assert (strip (json_fence +:+ nl +:+ body +:+ nl +:+ fence)
          = json_fence +:+ nl +:+ body +:+ nl +:+ fence) as ->.
  { rewrite <- (app_assoc nl), <- (app_assoc (nl +:+ body)). apply strip_fenced. }
  unfold clean_quiz_text. rewrite startswith_app_self.
  change (replace ?s json_fence ?n) with (replace_scan json_fence n 0 s).
  change (replace ?s fence ?n) with (replace_scan fence n 0 s).
  rewrite replace_scan_here, app_empty_l by done.
  rewrite (replace_scan_absent json_fence).
  2:{ unfold nl at 1. rewrite app_cons, app_empty_l. cbn [find].
      rewrite (find_json_fence_behind _ Hbody). reflexivity. }
  assert (nl +:+ body +:+ nl +:+ fence = (nl +:+ body +:+ nl) +:+ fence) as ->
    by by rewrite !app_assoc.
  rewrite replace_scan_before.
  2:{ rewrite !app_assoc, !length_app. unfold nl at 1.
      rewrite app_cons, app_empty_l. cbn [find].
      rewrite (find_fence_behind _ Hbody). cbn. f_equal. lia. }
  assert (replace_scan fence "" 0 fence = "") as -> by reflexivity.
  rewrite app_empty_r, <- app_assoc. unfold nl.
  rewrite strip_app_space by reflexivity. rewrite app_cons, app_empty_l.
  by rewrite strip_cons_space.
Qed.

End StringFacts.

(** *** The operations on sample texts *)

Example strip_sample : strip (" " +:+ nl +:+ "a b " +:+ nl) = "a b".
Proof. reflexivity. Qed.

Example isspace_sample :
  isspace "028" = true /\ isspace "160" = true /\ isspace "_" = false.
Proof. by repeat split. Qed.

Example replace_sample :
  replace "aaaa" "aa" "b" = "bb"
  /\ replace "x.pdfy.pdf" ".pdf" "" = "xy"
  /\ replace ".p.pdfdf" ".pdf" "" = ".pdf"
  /\ replace "ab" "" "-" = "-a-b-".
Proof. by repeat split. Qed.

Example endswith_sample :
  endswith "a.pdf" ".pdf" = true /\ endswith "a.PDF" ".pdf" = false
  /\ endswith "a.pdfx" ".pdf" = false.
Proof. by repeat split. Qed.

Example find_sample :
  find "ab.pdf" ".pdf" = Some 2%nat /\ find "ab" ".pdf" = None.
Proof. by repeat split. Qed.

Example str_int_sample :
  str_int 5 = "5" /\ str_int 0 = "0" /\ str_int (-12) = "-12".
Proof. by repeat split. Qed.

(** ** Facts about the handlers *)

Arguments derive_material_id : simpl never.
Arguments clean_quiz_text : simpl never.
Arguments notes_prompt : simpl never.
Arguments quiz_prompt : simpl never.
Arguments chat_prompt : simpl never.
Arguments material_context : simpl never.
Arguments generic_context : simpl never.
Arguments strip : simpl never.
Arguments slice_to : simpl never.
Arguments endswith : simpl never.
Arguments truthy : simpl never.

Section HandlerFacts.

Variable model : option (string -> exn + string).
Variable json_loads : string -> decoding.
Variable PdfReader : list Byte.byte -> exn + list (exn + string).
Variable str : exn -> string.

Implicit Types (w : World) (m : Material.t).

Lemma contains_present key m w :
  lecture_materials w !! key = Some m -> contains key w = (Return true, w).
Proof. intros H. unfold contains. by rewrite H. Qed.

Lemma contains_absent key w :
  lecture_materials w !! key = None -> contains key w = (Return false, w).
Proof. intros H. unfold contains. by rewrite H. Qed.

Lemma getitem_present key m w :
  lecture_materials w !! key = Some m -> getitem key w = (Return m, w).
Proof. intros H. unfold getitem. by rewrite H. Qed.

Lemma JSONResponse_world content w : (JSONResponse content w).2 = w.
Proof. unfold JSONResponse. by destruct (renderable content). Qed.

(** A content under the two keys [status] and [key] is rendered exactly
    when the value under [key] is. *)
Lemma renderable_answer key value :
  renderable (JObj [("status", JStr "success"); (key, value)]) = renderable value.
Proof. cbn. apply andb_true_r. Qed.

(** The page loop leaves the world alone, and returns exactly when every
    page gave its text: then the result is the lines of the pages behind
    what was there before. *)
Lemma extract_pages_world pages acc w : (extract_pages pages acc w).2 = w.
Proof.
  revert acc. induction pages as [|[e|t] pages IH]; intros acc; [done..|].
  cbn [extract_pages]. unfold bind. cbn. apply IH.
Qed.

Lemma extract_pages_texts texts acc w :
  extract_pages (inr <$> texts) acc w = (Return (acc +:+ Spec.page_lines texts), w).
Proof.
  revert acc. induction texts as [|t texts IH]; intros acc.
  - cbn. by rewrite app_empty_r.
  - cbn [fmap list_fmap extract_pages Spec.page_lines]. unfold bind. cbn.
    rewrite IH. by rewrite !app_assoc.
Qed.

Lemma extract_pages_returns pages acc w text w' :
  extract_pages pages acc w = (Return text, w') ->
  exists texts, pages = inr <$> texts /\ text = acc +:+ Spec.page_lines texts /\ w' = w.
Proof.
  revert acc. induction pages as [|[e|t] pages IH]; intros acc.
  - intros [= <- <-]. exists []. by rewrite app_empty_r.
  - discriminate.
  - cbn [extract_pages]. unfold bind. cbn. intros (texts & -> & -> & ->)%IH.
    exists (t :: texts). by rewrite !app_assoc.
Qed.

(** *** What each handler does to the world *)

Lemma upload_pdf_step file w : materials_step w (upload_pdf PdfReader str file w).2.
Proof.
  unfold upload_pdf. destruct (endswith _ _); cbn; [|by apply step_same].
  unfold try_except, bind, lift.
  destruct (PdfReader _) as [e|pages]; cbn; [by apply step_same|].
  pose proof (extract_pages_world pages "" w) as Hw.
  destruct (extract_pages pages "" w) as [[text|e] w1]; cbn in Hw; subst w1; cbn;
    [|by apply step_same].
  destruct (truthy (strip text)) eqn:Htext; cbn; [|by apply step_same].
  eapply step_created; cycle 1; [reflexivity|exact Htext].
Qed.

Lemma generate_notes_step material_id w :
  materials_step w (generate_notes model str material_id w).2.
Proof.
  unfold generate_notes, bind, contains. cbn.
  destruct (lecture_materials w !! material_id) as [m|] eqn:Hm; cbn;
    [|by apply step_same].
  destruct model as [client|]; cbn; [|by apply step_same].
  unfold try_except, bind, setfield, bind, getitem, generate_content. cbn. rewrite Hm.
  destruct (client _) as [e|notes]; cbn; [by apply step_same|].
  rewrite Hm. cbn.
  by apply (step_annotated _ _ material_id m (Material.set_notes notes m)).
Qed.

Lemma generate_quiz_step request w :
  materials_step w (generate_quiz model json_loads str request w).2.
Proof.
  unfold generate_quiz, bind, contains. cbn.
  destruct (lecture_materials w !! QuizRequest.material_id request) as [m|] eqn:Hm; cbn;
    [|by apply step_same].
  destruct model as [client|]; cbn; [|by apply step_same].
  unfold try_except, bind, setfield, bind, getitem, generate_content. cbn. rewrite Hm.
  destruct (client _) as [e|text]; cbn; [by apply step_same|].
  destruct (json_loads _) as [parsed| |e]; cbn; [| |by apply step_same]; rewrite Hm; cbn;
    unfold JSONResponse; [destruct (renderable _)|]; cbn;
    by eapply (step_annotated _ _ (QuizRequest.material_id request) m
                 (Material.set_quiz _ m)).
Qed.

Lemma chat_context_world material_id w : (chat_context material_id w).2 = w.
Proof.
  unfold chat_context. destruct material_id as [id|]; [|done].
  unfold bind, contains, getitem. cbn.
  destruct (truthy id); cbn; [|done].
  destruct (lecture_materials w !! id) eqn:Hm; cbn; [|done].
  by rewrite Hm.
Qed.

Lemma chat_with_tutor_materials request w :
  lecture_materials (chat_with_tutor model str request w).2 = lecture_materials w.
Proof.
  unfold chat_with_tutor. destruct model as [client|]; [|done].
  unfold try_except, bind.
  pose proof (chat_context_world (ChatRequest.material_id request) w) as Hw.
  destruct (chat_context _ w) as [[context|e] w1]; cbn in Hw; subst w1; [|done].
  unfold generate_content. by destruct (client _).
Qed.

(** A listing holds texts and truth values only, so it is rendered. *)
Lemma renderable_listing (entries : list (string * Material.t)) :
  renderable (JObj [("materials", JArr (summary <$> entries))]) = true.
Proof.
  cbn. rewrite andb_true_r. induction entries as [|[id m] entries IH]; [done|].
  cbn. exact IH.
Qed.

Lemma list_materials_run w :
  list_materials w
  = (Return (JObj [("materials", JArr (summary <$> map_to_list (lecture_materials w)))]), w).
Proof.
  unfold list_materials, bind, items, JSONResponse. by rewrite renderable_listing.
Qed.

Lemma list_materials_world w : (list_materials w).2 = w.
Proof. by rewrite list_materials_run. Qed.

(** The details of a material are rendered exactly when its quiz is. *)
Lemma renderable_details material_id m :
  renderable
    (JObj [("material_id", JStr material_id);
           ("filename", JStr (Material.filename m));
           ("content_preview", JStr (slice_to 500 (Material.content m) +:+ "..."));
           ("notes", json_of_optional_str (Material.notes m));
           ("quiz", Material.quiz m)])
  = renderable (Material.quiz m).
Proof. cbn. rewrite andb_true_r. by destruct (Material.notes m). Qed.

(** [get_material] on a stored id: the details when they can be rendered,
    else the exception of [JSONResponse], which nothing catches. *)
Lemma get_material_run material_id w m :
  lecture_materials w !! material_id = Some m ->
  get_material material_id w =
  (if renderable (Material.quiz m)
   then Return (JObj [("material_id", JStr material_id);
                      ("filename", JStr (Material.filename m));
                      ("content_preview",
                       JStr (slice_to 500 (Material.content m) +:+ "..."));
                      ("notes", json_of_optional_str (Material.notes m));
                      ("quiz", Material.quiz m)])
   else Raise out_of_range,
   w).
Proof.
  intros Hm. unfold get_material, bind. rewrite (contains_present _ _ _ Hm). cbn.
  rewrite (getitem_present _ _ _ Hm). unfold JSONResponse.
  rewrite renderable_details. by destruct (renderable (Material.quiz m)).
Qed.

Lemma get_material_world material_id w : (get_material material_id w).2 = w.
Proof.
  unfold get_material, bind, contains, getitem. cbn.
  destruct (lecture_materials w !! material_id) eqn:Hm; cbn; [|done].
  rewrite Hm. apply JSONResponse_world.
Qed.

Lemma handle_step r w : materials_step w (handle model json_loads PdfReader str r w).2.
Proof.
  destruct r; cbn [handle].
  - apply upload_pdf_step.
  - apply generate_notes_step.
  - apply generate_quiz_step.
  - apply step_same, chat_with_tutor_materials.
  - apply step_same. by rewrite list_materials_world.
  - apply step_same. by rewrite get_material_world.
Qed.

Lemma content_present_step w w' :
  materials_step w w' -> Spec.content_present w -> Spec.content_present w'.
Proof.
  intros Hstep Hw id m. destruct Hstep as [E|id' m' Hm' E|id' m0 m' Hm0 Hc E];
    rewrite E.
  - apply Hw.
  - rewrite lookup_insert. case_decide; [|apply Hw].
    intros [= <-]. by apply strip_truthy.
  - rewrite lookup_insert. case_decide; [|apply Hw].
    intros [= <-]. rewrite Hc. by eapply Hw.
Qed.

(** *** Runs of [generate_quiz] and [upload_pdf] *)

(** Where the material is stored and the client answers, [generate_quiz]
    returns and stores what the parser makes of the cleaned answer, or the
    cleaned answer itself. *)
Lemma generate_quiz_run request w m client text :
  lecture_materials w !! QuizRequest.material_id request = Some m ->
  model = Some client ->
  client (quiz_prompt (QuizRequest.num_questions request) (Material.content m)) = inr text ->
  generate_quiz model json_loads str request w =
  let quiz_text := clean_quiz_text (strip text) in
  let prompt := quiz_prompt (QuizRequest.num_questions request) (Material.content m) in
  let answer quiz :=
    (if renderable quiz
     then Return (JObj [("status", JStr "success"); ("quiz", quiz)])
     else Raise (HTTPException 500 ("Error generating quiz: " +:+ str out_of_range)),
     mkWorld (<[QuizRequest.material_id request := Material.set_quiz quiz m]>
                (lecture_materials w))
             (prompt :: prompts_sent w)) in
  match json_loads quiz_text with
  | Decoded parsed => answer parsed
  | JSONDecodeError => answer (JObj [("raw_text", JStr quiz_text)])
  | OtherError e =>
      (Raise (HTTPException 500 ("Error generating quiz: " +:+ str e)),
       mkWorld (lecture_materials w) (prompt :: prompts_sent w))
  end.
Proof.
  intros Hm -> Hclient. unfold generate_quiz, bind.
  rewrite (contains_present _ _ _ Hm). cbn.
  unfold try_except, bind, setfield, bind, generate_content.
  rewrite (getitem_present _ _ _ Hm), Hclient. cbn.
  destruct (json_loads _) as [parsed| |e]; cbn; [| |done];
    unfold getitem; cbn; rewrite Hm; cbn; [|done].
  unfold JSONResponse. rewrite renderable_answer. by destruct (renderable parsed).
Qed.

(** A name that does not end in [.pdf] is refused with status 400, before
    the [try] block is entered. *)
Lemma upload_pdf_other_name file w :
  endswith (UploadFile.filename file) ".pdf" = false ->
  upload_pdf PdfReader str file w
  = (Raise (HTTPException 400 "Only PDF files are allowed"), w).
Proof. intros Hname. unfold upload_pdf. by rewrite Hname. Qed.

(** An accepted name and pages that all give their text: the upload is
    decided by the check on the text. *)
Lemma upload_pdf_run file w texts :
  endswith (UploadFile.filename file) ".pdf" = true ->
  PdfReader (UploadFile.read file) = inr (inr <$> texts) ->
  upload_pdf PdfReader str file w =
  if truthy (strip (Spec.page_lines texts))
  then
    (Return (JObj [("status", JStr "success");
                   ("message", JStr "PDF uploaded successfully");
                   ("material_id", JStr (derive_material_id (UploadFile.filename file)));
                   ("filename", JStr (UploadFile.filename file))]),
     mkWorld (<[derive_material_id (UploadFile.filename file) :=
                  Material.mk (UploadFile.filename file) (Spec.page_lines texts) None JNull]>
                (lecture_materials w))
             (prompts_sent w))
  else
    (Raise (HTTPException 500
              ("Error processing PDF: "
               +:+ str (HTTPException 400 "No text content found in PDF"))),
     w).
Proof.
  intros Hname Hpages. unfold upload_pdf. rewrite Hname. cbn.
  unfold try_except, bind. rewrite Hpages. cbn.
  rewrite extract_pages_texts, app_empty_l.
  by destruct (truthy (strip (Spec.page_lines texts))).
Qed.

End HandlerFacts.

(** ** The properties of the specification *)

(** C1, as the code runs: an upload whose name ends in [.pdf] and whose
    extracted text is empty or white space only creates no record, but it
    does not fail with status 400.  The [HTTPException] with status 400 is
    raised inside the [try] block of [upload_pdf], its [except Exception]
    catches it, and the request fails with status 500. *)
Theorem upload_blank_text_fails_with_500 PdfReader str file w texts :
  endswith (UploadFile.filename file) ".pdf" = true ->
  PdfReader (UploadFile.read file) = inr (inr <$> texts) ->
  Spec.all_whitespace (Spec.page_lines texts) = true ->
  upload_pdf PdfReader str file w =
  (Raise (HTTPException 500
            ("Error processing PDF: "
             +:+ str (HTTPException 400 "No text content found in PDF"))),
   w).
Proof.
  intros Hname Hpages Hblank. rewrite (upload_pdf_run _ _ _ _ texts Hname Hpages).
  apply strip_falsy in Hblank. by rewrite Hblank.
Qed.

(** C2, amended: the material id is the file name with every occurrence of
    [.pdf] deleted, scanning from the left, and then every space turned
    into an underscore.  For a name that ends in [.pdf] and has no earlier
    occurrence of [.pdf], that is the name without its trailing [.pdf] and
    with underscores for spaces; [lecture notes.pdf] gets the id
    [lecture_notes]. *)
Theorem derive_material_id_deletes_every_pdf :
  (forall filename,
      derive_material_id filename = Spec.underscore_spaces (replace filename ".pdf" ""))
  /\ (forall filename,
        endswith filename ".pdf" = true ->
        find filename ".pdf" = Some (String.length filename - 4)%nat ->
        derive_material_id filename = Spec.material_id filename)
  /\ derive_material_id "lecture notes.pdf" = "lecture_notes".
Proof.
  split; [|split]; [| |reflexivity].
  - intros filename. unfold derive_material_id. apply replace_space_underscore.
  - intros filename [stem ->]%endswith_inv Hfind.
    unfold derive_material_id, Spec.material_id.
    rewrite replace_space_underscore, removesuffix_app. f_equal.
    change (replace ?s ".pdf" ?n) with (replace_scan ".pdf" n 0 s).
    rewrite replace_scan_before.
    + rewrite <- (app_empty_r (".pdf")) at 2.
      rewrite replace_scan_here by done. apply app_empty_r.
    + rewrite Hfind, length_app. cbn [String.length]. f_equal. lia.
Qed.

(** C3, as the code runs: when the material is stored and the client
    answers, a cleaned answer on which [json.loads] raises
    [JSONDecodeError] is returned as [{"raw_text": cleaned answer}] with
    status [success] and stored as the quiz.  That is as far as the soft
    failure goes: an answer on which [json.loads] raises anything else
    fails with status 500, and an answer it turns into a value that
    [JSONResponse] cannot render (as [NaN]) is stored as the quiz and then
    fails with status 500. *)
Theorem generate_quiz_fallback_covers_decode_errors_only
    model json_loads str request w m client text :
  lecture_materials w !! QuizRequest.material_id request = Some m ->
  model = Some client ->
  client (quiz_prompt (QuizRequest.num_questions request) (Material.content m)) = inr text ->
  (json_loads (clean_quiz_text (strip text)) = JSONDecodeError ->
   generate_quiz model json_loads str request w =
   (Return (JObj [("status", JStr "success");
                  ("quiz", JObj [("raw_text", JStr (clean_quiz_text (strip text)))])]),
    mkWorld (<[QuizRequest.material_id request :=
                 Material.set_quiz (JObj [("raw_text", JStr (clean_quiz_text (strip text)))]) m]>
               (lecture_materials w))
            (quiz_prompt (QuizRequest.num_questions request) (Material.content m)
             :: prompts_sent w)))
  /\ (forall e,
        json_loads (clean_quiz_text (strip text)) = OtherError e ->
        generate_quiz model json_loads str request w =
        (Raise (HTTPException 500 ("Error generating quiz: " +:+ str e)),
         mkWorld (lecture_materials w)
                 (quiz_prompt (QuizRequest.num_questions request) (Material.content m)
                  :: prompts_sent w)))
  /\ (forall parsed,
        json_loads (clean_quiz_text (strip text)) = Decoded parsed ->
        renderable parsed = false ->
        generate_quiz model json_loads str request w =
        (Raise (HTTPException 500 ("Error generating quiz: " +:+ str out_of_range)),
         mkWorld (<[QuizRequest.material_id request := Material.set_quiz parsed m]>
                    (lecture_materials w))
                 (quiz_prompt (QuizRequest.num_questions request) (Material.content m)
                  :: prompts_sent w))).
Proof.
  intros Hm Hmodel Hclient.
  pose proof (generate_quiz_run model json_loads str _ _ _ _ _ Hm Hmodel Hclient) as Hrun.
  cbv zeta in Hrun. split; [|split].
  - intros Hparse. by rewrite Hrun, Hparse.
  - intros e Hparse. by rewrite Hrun, Hparse.
  - intros parsed Hparse Hrender. by rewrite Hrun, Hparse, Hrender.
Qed.

(** C4: a chat request that names a material absent from the store is
    answered exactly as the same request without a material: the prompt
    carries the generic tutoring context, the answer of the client is
    returned, and the request never fails with status 404. *)
Theorem chat_with_unknown_material_is_generic model str message material_id w :
  lecture_materials w !! material_id = None ->
  chat_with_tutor model str (ChatRequest.mk message (Some material_id)) w
  = chat_with_tutor model str (ChatRequest.mk message None) w
  /\ (forall client answer,
        model = Some client ->
        client (chat_prompt generic_context message) = inr answer ->
        chat_with_tutor model str (ChatRequest.mk message (Some material_id)) w =
        (Return (JObj [("status", JStr "success"); ("response", JStr answer)]),
         mkWorld (lecture_materials w)
                 (chat_prompt generic_context message :: prompts_sent w)))
  /\ (forall detail,
        (chat_with_tutor model str (ChatRequest.mk message (Some material_id)) w).1
        <> Raise (HTTPException 404 detail)).
Proof.
  intros Hm.
  assert (chat_context (Some material_id) w = chat_context None w) as Hcontext.
  { unfold chat_context, bind. rewrite (contains_absent _ _ Hm).
    by rewrite andb_false_r. }
  assert (chat_with_tutor model str (ChatRequest.mk message (Some material_id)) w
          = chat_with_tutor model str (ChatRequest.mk message None) w) as Hsame.
  { unfold chat_with_tutor. destruct model as [client|]; [|done].
    unfold try_except, bind. cbn [ChatRequest.material_id]. by rewrite Hcontext. }
  split; [exact Hsame|]. rewrite Hsame. split.
  - intros client answer -> Hclient. unfold chat_with_tutor, try_except, bind.
    cbn. unfold generate_content. by rewrite Hclient.
  - intros detail. unfold chat_with_tutor. destruct model as [client|]; [|done].
    unfold try_except, bind. cbn. unfold generate_content.
    by destruct (client _).
Qed.


(** C6: every record of every reachable store has a content that is not
    empty and not white space only, and each of the six operations keeps
    it so. *)
Theorem stored_content_is_never_blank :
  (forall w, reachable w -> Spec.content_present w)
  /\ (forall model json_loads PdfReader str r w,
        Spec.content_present w ->
        Spec.content_present (handle model json_loads PdfReader str r w).2).
Proof.
  assert (forall model json_loads PdfReader str r w,
             Spec.content_present w ->
             Spec.content_present (handle model json_loads PdfReader str r w).2) as Hstep.
  { intros model json_loads PdfReader str r w. apply content_present_step, handle_step. }
  split; [|exact Hstep].
  induction 1 as [|model json_loads PdfReader str r w _ IH]; [|by apply Hstep].
  intros id m. cbn. by rewrite lookup_empty.
Qed.

(** C7: for an id that is not in the store [generate_notes] fails with
    status 404 and leaves the world as it was, so no prompt went to the
    generative client; this holds whether or not a client is configured. *)
Theorem generate_notes_unknown_material model str material_id w :
  lecture_materials w !! material_id = None ->
  generate_notes model str material_id w
  = (Raise (HTTPException 404 "Material not found"), w).
Proof.
  intros Hm. unfold generate_notes, bind. by rewrite (contains_absent _ _ Hm).
Qed.

(** Where the fences stand at the two ends only, the handler does remove
    just them: a response made of the fence [```json], a line feed, a body,
    a line feed and the fence [```], where the body holds no fence of its
    own, is cleaned to the stripped body; when [json.loads] accepts the
    stripped body and its value can be rendered, that value is returned as
    the quiz and stored. *)
Lemma generate_quiz_fenced_json_run
    model json_loads str request w m client body parsed :
  lecture_materials w !! QuizRequest.material_id request = Some m ->
  model = Some client ->
  client (quiz_prompt (QuizRequest.num_questions request) (Material.content m))
  = inr (json_fence +:+ nl +:+ body +:+ nl +:+ fence) ->
  find body fence = None ->
  json_loads (strip body) = Decoded parsed ->
  renderable parsed = true ->
  clean_quiz_text (strip (json_fence +:+ nl +:+ body +:+ nl +:+ fence))
  = Spec.strip_fences (strip (json_fence +:+ nl +:+ body +:+ nl +:+ fence))
  /\ generate_quiz model json_loads str request w =
     (Return (JObj [("status", JStr "success"); ("quiz", parsed)]),
      mkWorld (<[QuizRequest.material_id request := Material.set_quiz parsed m]>
                 (lecture_materials w))
              (quiz_prompt (QuizRequest.num_questions request) (Material.content m)
               :: prompts_sent w)).
Proof.
  intros Hm Hmodel Hclient Hbody Hparse Hrender. split.
  - by rewrite clean_fenced, strip_fences_fenced.
  - rewrite (generate_quiz_run _ _ _ _ _ _ _ _ Hm Hmodel Hclient). cbn zeta.
    by rewrite (clean_fenced _ Hbody), Hparse, Hrender.
Qed.

(** C9: an upload that succeeds stores, under the derived id, the file
    name, the texts of the pages in order, each followed by a line feed,
    and neither notes nor quiz; uploading [x.pdf], whose one page reads
    [Hello world], to the empty store leaves the single material [x] with
    that text and a line feed as content. *)
Theorem upload_stores_page_lines PdfReader str :
  (forall file w payload w',
      upload_pdf PdfReader str file w = (Return payload, w') ->
      exists texts,
        PdfReader (UploadFile.read file) = inr (inr <$> texts)
        /\ w' = mkWorld
                  (<[derive_material_id (UploadFile.filename file) :=
                       Material.mk (UploadFile.filename file)
                                   (Spec.page_lines texts) None JNull]>
                     (lecture_materials w))
                  (prompts_sent w))
  /\ (forall bytes,
        PdfReader bytes = inr [inr "Hello world"] ->
        upload_pdf PdfReader str (UploadFile.mk "x.pdf" bytes) initial_world =
        (Return (JObj [("status", JStr "success");
                       ("message", JStr "PDF uploaded successfully");
                       ("material_id", JStr "x");
                       ("filename", JStr "x.pdf")]),
         mkWorld {[ "x" := Material.mk "x.pdf" ("Hello world" +:+ nl) None JNull ]} [])).
Proof.
  split.
  - intros file w payload w'. unfold upload_pdf.
    destruct (endswith _ _); cbn; [|discriminate].
    unfold try_except, bind.
    destruct (PdfReader _) as [e|pages]; cbn; [discriminate|].
    destruct (extract_pages pages "" w) as [[text|e] w1] eqn:Hpages; [|discriminate].
    apply extract_pages_returns in Hpages as (texts & -> & -> & ->).
    rewrite app_empty_l.
    destruct (truthy _); cbn; [|discriminate].
    intros [= <- <-]. by exists texts.
  - intros bytes Hpages.
    rewrite (upload_pdf_run PdfReader str (UploadFile.mk "x.pdf" bytes) _
               ["Hello world"] eq_refl Hpages).
    reflexivity.
Qed.

(** C10: [chat_with_tutor] leaves the dictionary of materials exactly as it
    found it, for every request and every world, whether the client
    answers or raises and whether or not one is configured. *)
Theorem chat_never_changes_materials model str request w :
  lecture_materials (chat_with_tutor model str request w).2 = lecture_materials w.
Proof.
  unfold chat_with_tutor. destruct model as [client|]; [|done].
  unfold try_except, bind.
  pose proof (chat_context_world (ChatRequest.material_id request) w) as Hw.
  destruct (chat_context _ w) as [[context|e] w1]; cbn in Hw; subst w1; [|done].
  unfold generate_content. by destruct (client _).
Qed.

(** ** The properties at concrete requests *)

Lemma upload_blank_text_fails_with_500_witness :
  upload_pdf (Sample.one_page "   ") Sample.str Sample.notes_file initial_world =
  (Raise (HTTPException 500 "Error processing PDF: 400: No text content found in PDF"),
   initial_world).
Proof.
  exact (upload_blank_text_fails_with_500
           (Sample.one_page "   ") Sample.str Sample.notes_file initial_world ["   "]
           eq_refl eq_refl eq_refl).
Defined.

Lemma derive_material_id_deletes_every_pdf_witness :
  derive_material_id "lecture notes.pdf" = Spec.material_id "lecture notes.pdf".
Proof.
  apply (proj1 (proj2 derive_material_id_deletes_every_pdf)); reflexivity.
Defined.

(** Against C2 as stated: [notes.pdf.pdf] ends in [.pdf]; without its
    trailing [.pdf] it is [notes.pdf], but the derived id is [notes]. *)
Lemma derive_material_id_inner_pdf :
  endswith "notes.pdf.pdf" ".pdf" = true
  /\ Spec.material_id "notes.pdf.pdf" = "notes.pdf"
  /\ derive_material_id "notes.pdf.pdf" = "notes"
  /\ ~ (forall filename,
          endswith filename ".pdf" = true ->
          derive_material_id filename = Spec.material_id filename).
Proof.
  split; [reflexivity|]. split; [reflexivity|]. split; [reflexivity|].
  intros H. specialize (H "notes.pdf.pdf" eq_refl). discriminate H.
Qed.

Lemma generate_quiz_fallback_covers_decode_errors_only_witness :
  generate_quiz (Some (Sample.answering "NaN")) Sample.json_loads Sample.str
                (QuizRequest.mk "x" 5) Sample.one_material =
  (Raise (HTTPException 500
            "Error generating quiz: Out of range float values are not JSON compliant"),
   mkWorld (<["x" := Material.mk "x.pdf" ("Hello world" +:+ nl) None (JNonFinite NaN)]>
              (lecture_materials Sample.one_material))
           [quiz_prompt 5 ("Hello world" +:+ nl)]).
Proof.
  exact (proj2 (proj2 (generate_quiz_fallback_covers_decode_errors_only
                         (Some (Sample.answering "NaN")) Sample.json_loads Sample.str
                         (QuizRequest.mk "x" 5) Sample.one_material
                         (Material.mk "x.pdf" ("Hello world" +:+ nl) None JNull)
                         (Sample.answering "NaN") "NaN" eq_refl eq_refl eq_refl))
               (JNonFinite NaN) eq_refl eq_refl).
Defined.

Lemma chat_with_unknown_material_is_generic_witness :
  chat_with_tutor (Some (Sample.answering "42")) Sample.str
                  (ChatRequest.mk "Why?" (Some "y")) Sample.one_material
  = chat_with_tutor (Some (Sample.answering "42")) Sample.str
                    (ChatRequest.mk "Why?" None) Sample.one_material
  /\ chat_with_tutor (Some (Sample.answering "42")) Sample.str
                     (ChatRequest.mk "Why?" (Some "y")) Sample.one_material
     = (Return (JObj [("status", JStr "success"); ("response", JStr "42")]),
        mkWorld (lecture_materials Sample.one_material)
                [chat_prompt generic_context "Why?"]).
Proof.
  destruct (chat_with_unknown_material_is_generic
              (Some (Sample.answering "42")) Sample.str "Why?" "y" Sample.one_material
              eq_refl) as (Hsame & Hanswer & _).
  split; [exact Hsame|]. exact (Hanswer (Sample.answering "42") "42" eq_refl eq_refl).
Defined.


Lemma stored_content_is_never_blank_witness :
  Spec.content_present
    (handle None Sample.json_loads (Sample.one_page "Hello world") Sample.str
            (Upload Sample.notes_file) initial_world).2.
Proof.
  apply (proj1 stored_content_is_never_blank).
  apply reachable_handle, reachable_initial.
Defined.

Lemma generate_notes_unknown_material_witness :
  generate_notes (Some (Sample.answering "notes")) Sample.str "y" Sample.one_material
  = (Raise (HTTPException 404 "Material not found"), Sample.one_material).
Proof.
  exact (generate_notes_unknown_material
           (Some (Sample.answering "notes")) Sample.str "y" Sample.one_material eq_refl).
Defined.

(** C8, as the code runs: the answer is a fenced JSON array whose one
    string holds three backquotes.  With the fences at the two ends removed
    it is that array, which [json.loads] accepts; the handler deletes the
    backquotes inside the string as well, and returns and stores an array
    of another string, with status [success]. *)
Lemma generate_quiz_deletes_inner_fences :
  let body := "[" +:+ dq +:+ "a```b" +:+ dq +:+ "]" in
  let text := json_fence +:+ nl +:+ body +:+ nl +:+ fence in
  Spec.strip_fences (strip text) = body
  /\ Sample.json_loads body = Decoded (JArr [JStr "a```b"])
  /\ clean_quiz_text (strip text) = "[" +:+ dq +:+ "ab" +:+ dq +:+ "]"
  /\ generate_quiz (Some (Sample.answering text)) Sample.json_loads Sample.str
                   (QuizRequest.mk "x" 5) Sample.one_material
     = (Return (JObj [("status", JStr "success"); ("quiz", JArr [JStr "ab"])]),
        mkWorld {[ "x" := Material.mk "x.pdf" ("Hello world" +:+ nl) None
                                      (JArr [JStr "ab"]) ]}
                [quiz_prompt 5 ("Hello world" +:+ nl)])
  /\ ~ (forall response,
          clean_quiz_text (strip response) = Spec.strip_fences (strip response)).
Proof.
  cbv zeta. split; [reflexivity|]. split; [reflexivity|]. split; [reflexivity|].
  split; [reflexivity|].
  intros H.
  specialize (H (json_fence +:+ nl +:+ ("[" +:+ dq +:+ "a```b" +:+ dq +:+ "]")
                 +:+ nl +:+ fence)).
  discriminate H.
Qed.

Lemma upload_stores_page_lines_witness :
  upload_pdf (Sample.one_page "Hello world") Sample.str Sample.notes_file initial_world =
  (Return (JObj [("status", JStr "success");
                 ("message", JStr "PDF uploaded successfully");
                 ("material_id", JStr "x");
                 ("filename", JStr "x.pdf")]),
   Sample.one_material).
Proof.
  exact (proj2 (upload_stores_page_lines (Sample.one_page "Hello world") Sample.str)
               [] eq_refl).
Defined.

(** * Further properties of the handlers *)

(** ** More facts about the string operations *)

Section MoreStringFacts.

Implicit Types (s t p q : string) (c : ascii).

Lemma slice_to_cons n c s : slice_to (S n) (String c s) = String c (slice_to n s).
Proof. reflexivity. Qed.

Lemma slice_to_app n s t : (n <= String.length s)%nat -> slice_to n (s +:+ t) = slice_to n s.
Proof.
  revert n. induction s as [|c s IH]; intros [|n] Hn; cbn [String.length] in Hn;
    try reflexivity; try lia.
  rewrite app_cons, !slice_to_cons. f_equal. apply IH. lia.
Qed.

Lemma slice_to_idem n s : slice_to n (slice_to n s) = slice_to n s.
Proof.
  revert n. induction s as [|c s IH]; intros [|n]; try reflexivity.
  rewrite !slice_to_cons. f_equal. apply IH.
Qed.

Lemma app_same_length_tail s s' p q :
  s +:+ p = s' +:+ q -> String.length p = String.length q -> p = q.
Proof.
  revert s'. induction s as [|c s IH]; intros [|c' s'] E Hlen.
  - exact E.
  - rewrite app_empty_l in E. subst p. rewrite app_cons in Hlen.
    cbn [String.length] in Hlen. rewrite length_app in Hlen. lia.
  - rewrite app_empty_l in E. subst q. rewrite app_cons in Hlen.
    cbn [String.length] in Hlen. rewrite length_app in Hlen. lia.
  - rewrite !app_cons in E. injection E as _ E. by eapply IH.
Qed.

(** Only one text of a given length ends a string. *)
Lemma endswith_other_ending s p q :
  String.length p = String.length q -> p <> q -> endswith (s +:+ p) q = false.
Proof.
  intros Hlen Hne. destruct (endswith (s +:+ p) q) eqn:E; [|done].
  apply endswith_inv in E as [s' E]. by apply app_same_length_tail in E.
Qed.

(** *** Underscores for spaces *)

Lemma underscore_spaces_cons c s :
  Spec.underscore_spaces (String c s)
  = String (if Ascii.eqb c " " then "_"%char else c) (Spec.underscore_spaces s).
Proof. reflexivity. Qed.

Lemma underscore_spaces_idem s :
  Spec.underscore_spaces (Spec.underscore_spaces s) = Spec.underscore_spaces s.
Proof.
  induction s as [|c s IH]; [done|]. rewrite !underscore_spaces_cons, IH. f_equal.
  destruct (Ascii.eqb_spec c " "); [done|]. by destruct (Ascii.eqb_spec c " ").
Qed.

Lemma underscore_spaces_no_space s : find (Spec.underscore_spaces s) " " = None.
Proof.
  induction s as [|c s IH]; [done|]. rewrite underscore_spaces_cons. cbn [find].
  rewrite startswith_cons, IH.
  destruct (Ascii.eqb_spec c " ") as [->|Hc]; [done|].
  by rewrite decide_False by congruence.
Qed.

Lemma find_char_absent_head c d p : find (String d p) (String c "") = None -> c <> d.
Proof.
  intros [H _]%find_cons_None. rewrite startswith_cons in H.
  case_decide; [by rewrite startswith_empty in H|done].
Qed.

(** A text without space and underscore begins a string exactly when it
    begins the string with underscores for spaces. *)
Lemma startswith_underscore p s :
  find p " " = None -> find p "_" = None ->
  startswith (Spec.underscore_spaces s) p = startswith s p.
Proof.
  revert s. induction p as [|d p IH]; intros s Hspace Hunder.
  - by rewrite !startswith_empty.
  - pose proof (find_char_absent_head _ _ _ Hspace) as Hd1.
    pose proof (find_char_absent_head _ _ _ Hunder) as Hd2.
    apply find_cons_None in Hspace as [_ Hspace].
    apply find_cons_None in Hunder as [_ Hunder].
    destruct s as [|c s]; [done|].
    rewrite underscore_spaces_cons, !startswith_cons, (IH s Hspace Hunder).
    destruct (Ascii.eqb_spec c " ") as [->|Hc]; [|done].
    rewrite !decide_False by congruence. done.
Qed.

Lemma startswith_pdf_underscore s :
  startswith (Spec.underscore_spaces s) ".pdf" = startswith s ".pdf".
Proof. by apply startswith_underscore. Qed.

Lemma replace_scan_at_start old new c s :
  replace_scan old new 0 (String c s)
  = if startswith (String c s) old
    then new +:+ replace_scan old new (String.length old - 1) s
    else String c (replace_scan old new 0 s).
Proof. reflexivity. Qed.

Lemma replace_scan_pdf_underscore k s :
  replace_scan ".pdf" "" k (Spec.underscore_spaces s)
  = Spec.underscore_spaces (replace_scan ".pdf" "" k s).
Proof.
  revert k. induction s as [|c s IH]; intros k; [done|].
  destruct k as [|k].
  - pose proof (startswith_pdf_underscore (String c s)) as Hstart.
    rewrite underscore_spaces_cons in *. rewrite !replace_scan_at_start, Hstart.
    destruct (startswith (String c s) ".pdf").
    + rewrite !app_empty_l. apply IH.
    + rewrite underscore_spaces_cons. f_equal. apply IH.
  - rewrite underscore_spaces_cons. cbn [replace_scan]. apply IH.
Qed.

(** *** Stripping twice *)

Lemma rstrip_idem s : rstrip (rstrip s) = rstrip s.
Proof.
  induction s as [|c s IH]; [done|]. cbn [rstrip].
  destruct (rstrip s) as [|d r] eqn:E.
  - destruct (isspace c) eqn:Hc; [done|]. cbn [rstrip]. by rewrite Hc.
  - cbn [rstrip] in *. by rewrite IH.
Qed.

Lemma lstrip_rstrip_head c s : isspace c = false -> lstrip (rstrip (String c s)) = rstrip (String c s).
Proof.
  intros Hc. cbn [rstrip]. destruct (rstrip s); [rewrite Hc|]; cbn [lstrip]; by rewrite Hc.
Qed.

Lemma strip_idem s : strip (strip s) = strip s.
Proof.
  unfold strip. destruct (lstrip s) as [|c t] eqn:E; [done|].
  rewrite (lstrip_rstrip_head c t (lstrip_head _ _ _ E)). apply rstrip_idem.
Qed.

(** *** More on fences *)

Lemma startswith_json_fence s : startswith s json_fence = true -> startswith s fence = true.
Proof.
  unfold json_fence, fence.
  destruct s as [|c1 [|c2 [|c3 s]]]; rewrite ?startswith_cons;
    repeat case_decide; rewrite ?startswith_empty; done.
Qed.

Lemma find_json_fence_absent s : find s fence = None -> find s json_fence = None.
Proof.
  induction s as [|c s IH]; [done|].
  intros [Hc Hs]%find_cons_None. cbn [find].
  destruct (startswith (String c s) json_fence) eqn:E.
  - apply startswith_json_fence in E. congruence.
  - by rewrite IH.
Qed.

Lemma find_fence_at_end s :
  find s fence = None -> find (s +:+ nl +:+ fence) fence = Some (String.length (s +:+ nl)).
Proof.
  intros Hs. rewrite (find_fence_behind _ Hs), length_app. cbn. f_equal. lia.
Qed.

End MoreStringFacts.

(** ** More facts about the handlers *)

Section MoreHandlerFacts.

Variable model : option (string -> exn + string).
Variable json_loads : string -> decoding.
Variable PdfReader : list Byte.byte -> exn + list (exn + string).
Variable str : exn -> string.

Implicit Types (w : World) (m : Material.t).

(** The page loop stops at the first page that raises. *)
Lemma extract_pages_raises texts e rest acc w :
  extract_pages ((inr <$> texts) ++ inl e :: rest) acc w = (Raise e, w).
Proof.
  revert acc. induction texts as [|t texts IH]; intros acc; [done|].
  cbn [fmap list_fmap app extract_pages]. unfold bind. cbn. apply IH.
Qed.

(** What an upload that returns has gone through *)
Lemma upload_pdf_returns file w payload w' :
  upload_pdf PdfReader str file w = (Return payload, w') ->
  exists texts,
    endswith (UploadFile.filename file) ".pdf" = true
    /\ PdfReader (UploadFile.read file) = inr (inr <$> texts)
    /\ truthy (strip (Spec.page_lines texts)) = true
    /\ payload = JObj [("status", JStr "success");
                       ("message", JStr "PDF uploaded successfully");
                       ("material_id", JStr (derive_material_id (UploadFile.filename file)));
                       ("filename", JStr (UploadFile.filename file))]
    /\ w' = mkWorld
              (<[derive_material_id (UploadFile.filename file) :=
                   Material.mk (UploadFile.filename file) (Spec.page_lines texts) None JNull]>
                 (lecture_materials w))
              (prompts_sent w).
Proof.
  unfold upload_pdf. destruct (endswith _ _) eqn:Hname; cbn; [|discriminate].
  unfold try_except, bind.
  destruct (PdfReader _) as [e|pages]; cbn; [discriminate|].
  destruct (extract_pages pages "" w) as [[text|e] w1] eqn:Hpages; [|discriminate].
  apply extract_pages_returns in Hpages as (texts & -> & -> & ->).
  rewrite app_empty_l.
  destruct (truthy _) eqn:Htext; cbn; [|discriminate].
  intros [= <- <-]. by exists texts.
Qed.

(** What an upload that raises has gone through *)
Lemma upload_pdf_fails file w e :
  (upload_pdf PdfReader str file w).1 = Raise e ->
  (upload_pdf PdfReader str file w).2 = w
  /\ (endswith (UploadFile.filename file) ".pdf" = false
      /\ e = HTTPException 400 "Only PDF files are allowed"
      \/ endswith (UploadFile.filename file) ".pdf" = true
         /\ exists cause, e = HTTPException 500 ("Error processing PDF: " +:+ str cause)).
Proof.
  unfold upload_pdf. destruct (endswith _ _) eqn:Hname; cbn.
  - unfold try_except, bind.
    destruct (PdfReader _) as [cause|pages]; cbn.
    { intros [= <-]. eauto. }
    pose proof (extract_pages_world pages "" w) as Hw.
    destruct (extract_pages pages "" w) as [[text|cause] w1]; cbn in Hw; subst w1; cbn.
    + destruct (truthy _); cbn; [discriminate|]. intros [= <-]. eauto.
    + intros [= <-]. eauto.
  - intros [= <-]. eauto.
Qed.

(** [generate_notes] where the material is stored and a client is
    configured: the answer of the client decides. *)
Lemma generate_notes_run material_id w m client :
  lecture_materials w !! material_id = Some m ->
  model = Some client ->
  generate_notes model str material_id w =
  match client (notes_prompt (Material.content m)) with
  | inr notes =>
      (Return (JObj [("status", JStr "success"); ("notes", JStr notes)]),
       mkWorld (<[material_id := Material.set_notes notes m]> (lecture_materials w))
               (notes_prompt (Material.content m) :: prompts_sent w))
  | inl e =>
      (Raise (HTTPException 500 ("Error generating notes: " +:+ str e)),
       mkWorld (lecture_materials w) (notes_prompt (Material.content m) :: prompts_sent w))
  end.
Proof.
  intros Hm ->. unfold generate_notes, bind.
  rewrite (contains_present _ _ _ Hm). cbn.
  unfold try_except, bind, setfield, bind, generate_content.
  rewrite (getitem_present _ _ _ Hm).
  destruct (client _) as [e|notes]; cbn; [done|].
  unfold getitem. cbn. by rewrite Hm.
Qed.

(** [generate_quiz] where the client raises *)
Lemma generate_quiz_client_raises request w m client e :
  lecture_materials w !! QuizRequest.material_id request = Some m ->
  model = Some client ->
  client (quiz_prompt (QuizRequest.num_questions request) (Material.content m)) = inl e ->
  generate_quiz model json_loads str request w =
  (Raise (HTTPException 500 ("Error generating quiz: " +:+ str e)),
   mkWorld (lecture_materials w)
           (quiz_prompt (QuizRequest.num_questions request) (Material.content m)
            :: prompts_sent w)).
Proof.
  intros Hm -> Hclient. unfold generate_quiz, bind.
  rewrite (contains_present _ _ _ Hm). cbn.
  unfold try_except, bind, setfield, bind, generate_content.
  by rewrite (getitem_present _ _ _ Hm), Hclient.
Qed.

(** The context of a chat: that of the material when its id is not empty
    and stored, the generic one otherwise.  Finding it changes nothing. *)
Lemma chat_context_run material_id w :
  chat_context material_id w =
  (Return match material_id with
          | Some id =>
              match lecture_materials w !! id with
              | Some m =>
                  if truthy id then material_context (Material.content m)
                  else generic_context
              | None => generic_context
              end
          | None => generic_context
          end,
   w).
Proof.
  unfold chat_context. destruct material_id as [id|]; [|done].
  unfold bind, contains, getitem. cbn.
  destruct (lecture_materials w !! id) as [m|] eqn:Hm; cbn.
  - destruct (truthy id); cbn; [|done]. by rewrite Hm.
  - by rewrite andb_false_r.
Qed.

(** [chat_with_tutor] with a client: the answer of the client decides. *)
Lemma chat_with_tutor_run request w client context :
  model = Some client ->
  chat_context (ChatRequest.material_id request) w = (Return context, w) ->
  chat_with_tutor model str request w =
  match client (chat_prompt context (ChatRequest.message request)) with
  | inr answer =>
      (Return (JObj [("status", JStr "success"); ("response", JStr answer)]),
       mkWorld (lecture_materials w)
               (chat_prompt context (ChatRequest.message request) :: prompts_sent w))
  | inl e =>
      (Raise (HTTPException 500 ("Error chatting with tutor: " +:+ str e)),
       mkWorld (lecture_materials w)
               (chat_prompt context (ChatRequest.message request) :: prompts_sent w))
  end.
Proof.
  intros -> Hcontext. unfold chat_with_tutor, try_except, bind. rewrite Hcontext.
  unfold generate_content. by destruct (client _).
Qed.

End MoreHandlerFacts.

(** All a request can do to the world: nothing but perhaps one more prompt
    sent, a record created by an upload, or the notes or the quiz of a
    stored record set with one prompt sent. *)
Lemma handle_effect model json_loads PdfReader str r w :
  let w' := (handle model json_loads PdfReader str r w).2 in
  (lecture_materials w' = lecture_materials w
   /\ (prompts_sent w' = prompts_sent w
       \/ model <> None /\ exists prompt, prompts_sent w' = prompt :: prompts_sent w))
  \/ (exists file text,
        r = Upload file
        /\ endswith (UploadFile.filename file) ".pdf" = true
        /\ truthy (strip text) = true
        /\ lecture_materials w'
           = <[derive_material_id (UploadFile.filename file) :=
                 Material.mk (UploadFile.filename file) text None JNull]>
               (lecture_materials w)
        /\ prompts_sent w' = prompts_sent w)
  \/ (exists material_id m notes prompt,
        r = GenerateNotes material_id
        /\ model <> None
        /\ lecture_materials w !! material_id = Some m
        /\ lecture_materials w'
           = <[material_id := Material.set_notes notes m]> (lecture_materials w)
        /\ prompts_sent w' = prompt :: prompts_sent w)
  \/ (exists request m quiz prompt,
        r = GenerateQuiz request
        /\ model <> None
        /\ lecture_materials w !! QuizRequest.material_id request = Some m
        /\ lecture_materials w'
           = <[QuizRequest.material_id request := Material.set_quiz quiz m]>
               (lecture_materials w)
        /\ prompts_sent w' = prompt :: prompts_sent w).
Proof.
  destruct r as [file|material_id|request|request| |material_id]; cbn [handle]; cbv zeta.
  - destruct (upload_pdf PdfReader str file w) as [[payload|e] w'] eqn:Hrun.
    + apply upload_pdf_returns in Hrun as (texts & Hname & _ & Htext & _ & ->).
      right; left. exists file, (Spec.page_lines texts). done.
    + pose proof (upload_pdf_fails PdfReader str file w e) as H. rewrite Hrun in H.
      destruct (H eq_refl) as [-> _]. left. eauto.
  - destruct (lecture_materials w !! material_id) as [m|] eqn:Hm.
    2:{ left. unfold generate_notes, bind. rewrite (contains_absent _ _ Hm). eauto. }
    destruct model as [client|].
    2:{ left. unfold generate_notes, bind. rewrite (contains_present _ _ _ Hm). eauto. }
    rewrite (generate_notes_run _ str _ _ _ _ Hm eq_refl).
    destruct (client _) as [e|notes]; cbn.
    + left. split; [done|]. right. eauto.
    + right; right; left. exists material_id, m, notes. eexists. eauto 10.
  - destruct (lecture_materials w !! QuizRequest.material_id request) as [m|] eqn:Hm.
    2:{ left. unfold generate_quiz, bind. rewrite (contains_absent _ _ Hm). eauto. }
    destruct model as [client|].
    2:{ left. unfold generate_quiz, bind. rewrite (contains_present _ _ _ Hm). eauto. }
    destruct (client (quiz_prompt (QuizRequest.num_questions request) (Material.content m)))
      as [e|text] eqn:Hclient.
    + rewrite (generate_quiz_client_raises _ json_loads str _ _ _ _ _ Hm eq_refl Hclient). cbn.
      left. split; [done|]. right. eauto.
    + rewrite (generate_quiz_run _ json_loads str _ _ _ _ _ Hm eq_refl Hclient). cbv zeta.
      destruct (json_loads _) as [parsed| |e]; cbn.
      * right; right; right. exists request, m. eexists. eexists. eauto 10.
      * right; right; right. exists request, m. eexists. eexists. eauto 10.
      * left. split; [done|]. right. eauto.
  - destruct model as [client|].
    2:{ left. unfold chat_with_tutor. eauto. }
    rewrite (chat_with_tutor_run _ str _ _ _ _ eq_refl (chat_context_run _ _)).
    destruct (client _); cbn; left; (split; [done|]); right; eauto.
  - left. rewrite list_materials_world. eauto.
  - left. rewrite get_material_world. eauto.
Qed.

(** [get_material] on a stored id whose quiz can be rendered *)
Lemma get_material_stored material_id w m :
  lecture_materials w !! material_id = Some m ->
  renderable (Material.quiz m) = true ->
  get_material material_id w =
  (Return (JObj [("material_id", JStr material_id);
                 ("filename", JStr (Material.filename m));
                 ("content_preview", JStr (slice_to 500 (Material.content m) +:+ "..."));
                 ("notes", json_of_optional_str (Material.notes m));
                 ("quiz", Material.quiz m)]),
   w).
Proof. intros Hm Hrender. by rewrite (get_material_run _ _ _ Hm), Hrender. Qed.

(** ** Uploads *)

(** X1: an upload whose file name does not end in the lower-case [.pdf]
    is refused with status 400 before anything is read, and the world stays
    as it was; a name that ends in [.PDF] is such a name. *)
Theorem upload_refuses_other_names PdfReader str :
  (forall file w,
      endswith (UploadFile.filename file) ".pdf" = false ->
      upload_pdf PdfReader str file w
      = (Raise (HTTPException 400 "Only PDF files are allowed"), w))
  /\ (forall stem bytes w,
        upload_pdf PdfReader str (UploadFile.mk (stem +:+ ".PDF") bytes) w
        = (Raise (HTTPException 400 "Only PDF files are allowed"), w)).
Proof.
  assert (forall file w,
             endswith (UploadFile.filename file) ".pdf" = false ->
             upload_pdf PdfReader str file w
             = (Raise (HTTPException 400 "Only PDF files are allowed"), w)) as Hrefused.
  { intros file w Hname. unfold upload_pdf. by rewrite Hname. }
  split; [exact Hrefused|]. intros stem bytes w. apply Hrefused.
  cbn [UploadFile.filename]. by apply endswith_other_ending.
Qed.

(** X2: when the reader cannot open the file, or a page fails to give its
    text after any number of pages that did, the upload fails with status
    500, the detail carries the text of that exception, and the world stays
    as it was. *)
Theorem upload_reports_reader_failure PdfReader str file w e :
  endswith (UploadFile.filename file) ".pdf" = true ->
  (PdfReader (UploadFile.read file) = inl e
   \/ exists texts rest,
       PdfReader (UploadFile.read file) = inr ((inr <$> texts) ++ inl e :: rest)) ->
  upload_pdf PdfReader str file w
  = (Raise (HTTPException 500 ("Error processing PDF: " +:+ str e)), w).
Proof.
  intros Hname Hreader. unfold upload_pdf. rewrite Hname. cbn.
  unfold try_except, bind. destruct Hreader as [->|(texts & rest & ->)]; cbn; [done|].
  by rewrite extract_pages_raises.
Qed.

(** X3: an upload that fails leaves the world exactly as it was, and it
    fails in one of two ways: with status 400 and the detail [Only PDF
    files are allowed] when the name does not end in [.pdf], with status
    500 when it does. *)
Theorem failed_upload_changes_nothing PdfReader str file w e :
  (upload_pdf PdfReader str file w).1 = Raise e ->
  (upload_pdf PdfReader str file w).2 = w
  /\ (endswith (UploadFile.filename file) ".pdf" = false
      /\ e = HTTPException 400 "Only PDF files are allowed"
      \/ endswith (UploadFile.filename file) ".pdf" = true
         /\ exists detail, e = HTTPException 500 detail).
Proof.
  intros Hrun. destruct (upload_pdf_fails PdfReader str file w e Hrun)
    as [Hw [[Hname ->]|[Hname [cause ->]]]]; eauto 10.
Qed.

(** X4: an upload that succeeds replaces whatever was stored under the
    derived id by the record of the new file: its name, the lines of its
    pages as content, no notes and no quiz; it leaves every record under
    another id as it was, and sends no prompt. *)
Theorem upload_replaces_record PdfReader str file w payload w' :
  upload_pdf PdfReader str file w = (Return payload, w') ->
  (exists texts,
      PdfReader (UploadFile.read file) = inr (inr <$> texts)
      /\ lecture_materials w' !! derive_material_id (UploadFile.filename file)
         = Some (Material.mk (UploadFile.filename file) (Spec.page_lines texts) None JNull))
  /\ (forall id,
        id <> derive_material_id (UploadFile.filename file) ->
        lecture_materials w' !! id = lecture_materials w !! id)
  /\ prompts_sent w' = prompts_sent w.
Proof.
  intros (texts & _ & Hpages & _ & _ & ->)%upload_pdf_returns. cbn.
  split; [|split; [|done]].
  - exists texts. split; [done|]. apply lookup_insert_eq.
  - intros id Hid. by apply lookup_insert_ne.
Qed.

(** X5: the derived id never holds a space, and a file name and the same
    name with underscores for its spaces derive the same id; so a
    successful upload under the second name takes the place of the record
    of the first. *)
Theorem ids_confuse_spaces_and_underscores :
  (forall filename, find (derive_material_id filename) " " = None)
  /\ (forall filename,
        derive_material_id (Spec.underscore_spaces filename) = derive_material_id filename)
  /\ (forall PdfReader str filename file w payload w',
        UploadFile.filename file = Spec.underscore_spaces filename ->
        upload_pdf PdfReader str file w = (Return payload, w') ->
        exists text,
          lecture_materials w' !! derive_material_id filename
          = Some (Material.mk (UploadFile.filename file) text None JNull)).
Proof.
  assert (forall filename,
             derive_material_id (Spec.underscore_spaces filename)
             = derive_material_id filename) as Hsame.
  { intros filename. unfold derive_material_id. rewrite !replace_space_underscore.
    change (replace ?s ".pdf" ?n) with (replace_scan ".pdf" n 0 s).
    by rewrite replace_scan_pdf_underscore, underscore_spaces_idem. }
  split; [|split; [exact Hsame|]].
  - intros filename. unfold derive_material_id. rewrite replace_space_underscore.
    apply underscore_spaces_no_space.
  - intros PdfReader str filename file w payload w' Hname
           (texts & _ & _ & _ & _ & ->)%upload_pdf_returns.
    exists (Spec.page_lines texts). cbn. rewrite Hname, Hsame. apply lookup_insert_eq.
Qed.

(** ** The store over time *)

(** X6: in every reachable world each record sits under the id derived
    from its own file name, and that name ends in [.pdf]. *)
Theorem stored_records_are_keyed_by_filename w :
  reachable w -> keyed_by_filename w.
Proof.
  induction 1 as [|model json_loads PdfReader str r w _ IH].
  { intros id m. cbn. by rewrite lookup_empty. }
  intros id m'.
  destruct (handle_effect model json_loads PdfReader str r w)
    as [[-> _]|[(file & text & _ & Hname & _ & -> & _)
               |[(id0 & m & notes & prompt & _ & _ & Hm & -> & _)
                |(request & m & quiz & prompt & _ & _ & Hm & -> & _)]]].
  - apply IH.
  - rewrite lookup_insert. case_decide; [|apply IH]. intros [= <-]. cbn. by split.
  - rewrite lookup_insert. case_decide; [|apply IH]. subst id0.
    intros [= <-]. exact (IH _ _ Hm).
  - rewrite lookup_insert. case_decide; [|apply IH]. subst id.
    intros [= <-]. exact (IH _ _ Hm).
Qed.

(** X7: no request removes a record, and no request other than an upload
    changes the file name or the content of one. *)
Theorem records_stay_and_keep_their_content model json_loads PdfReader str r w id m :
  lecture_materials w !! id = Some m ->
  exists m',
    lecture_materials (handle model json_loads PdfReader str r w).2 !! id = Some m'
    /\ ((forall file, r <> Upload file) ->
        Material.filename m' = Material.filename m
        /\ Material.content m' = Material.content m).
Proof.
  intros Hm.
  destruct (handle_effect model json_loads PdfReader str r w)
    as [[-> _]|[(file & text & -> & _ & _ & -> & _)
               |[(id0 & m0 & notes & prompt & _ & _ & Hm0 & -> & _)
                |(request & m0 & quiz & prompt & _ & _ & Hm0 & -> & _)]]].
  - eauto.
  - rewrite lookup_insert. case_decide.
    + eexists. split; [done|]. intros Hr. by destruct (Hr file).
    + eexists. split; [done|]. intros Hr. by destruct (Hr file).
  - rewrite lookup_insert. case_decide; [|eauto]. subst id0.
    rewrite Hm in Hm0. injection Hm0 as <-. eauto.
  - rewrite lookup_insert. case_decide; [|eauto]. subst id.
    rewrite Hm in Hm0. injection Hm0 as <-. eauto.
Qed.

(** X8: [generate_notes] changes at most the notes of the record it is
    asked about and [generate_quiz] at most its quiz: file name, content
    and the other of the two stay, and every other record stays whole. *)
Theorem notes_and_quiz_are_set_apart model json_loads str w id m :
  lecture_materials w !! id = Some m ->
  (forall material_id,
      exists m',
        lecture_materials (generate_notes model str material_id w).2 !! id = Some m'
        /\ Material.filename m' = Material.filename m
        /\ Material.content m' = Material.content m
        /\ Material.quiz m' = Material.quiz m
        /\ (id <> material_id -> m' = m))
  /\ (forall request,
        exists m',
          lecture_materials (generate_quiz model json_loads str request w).2 !! id = Some m'
          /\ Material.filename m' = Material.filename m
          /\ Material.content m' = Material.content m
          /\ Material.notes m' = Material.notes m
          /\ (id <> QuizRequest.material_id request -> m' = m)).
Proof.
  intros Hm. split.
  - intros material_id.
    destruct (handle_effect model json_loads (fun _ => inr []) str (GenerateNotes material_id) w)
      as [[H _]|[(file & text & [=] & _)
                |[(id0 & m0 & notes & prompt & [= <-] & _ & Hm0 & H & _)
                 |(request & m0 & quiz & prompt & [=] & _)]]];
      cbn [handle] in H; rewrite H.
    + eauto 10.
    + rewrite lookup_insert. case_decide; [|eauto 10]. subst id.
      rewrite Hm in Hm0. injection Hm0 as <-. eexists. by repeat split.
  - intros request.
    destruct (handle_effect model json_loads (fun _ => inr []) str (GenerateQuiz request) w)
      as [[H _]|[(file & text & [=] & _)
                |[(id0 & m0 & notes & prompt & [=] & _)
                 |(request0 & m0 & quiz & prompt & [= <-] & _ & Hm0 & H & _)]]];
      cbn [handle] in H; rewrite H.
    + eauto 10.
    + rewrite lookup_insert. case_decide; [|eauto 10]. subst id.
      rewrite Hm in Hm0. injection Hm0 as <-. eexists. by repeat split.
Qed.

(** X9: a service that started without an API key never comes to hold
    notes or a quiz and never sends a prompt, whatever is asked of it. *)
Theorem nothing_is_generated_without_a_key w :
  reachable_unconfigured w -> nothing_generated w.
Proof.
  induction 1 as [|json_loads PdfReader str r w _ [Hprompts Hrecords]].
  { split; [done|]. intros id m. cbn. by rewrite lookup_empty. }
  destruct (handle_effect None json_loads PdfReader str r w)
    as [[Hmaterials [Hsent|[Hmodel _]]]
       |[(file & text & _ & _ & _ & Hmaterials & Hsent)
        |[(id0 & m & notes & prompt & _ & Hmodel & _)
         |(request & m & quiz & prompt & _ & Hmodel & _)]]]; try done.
  - split; [congruence|]. by rewrite Hmaterials.
  - split; [congruence|]. intros id m. rewrite Hmaterials, lookup_insert.
    case_decide; [|apply Hrecords]. by intros [= <-].
Qed.

(** ** Generation without a client, for an unknown id, with a failing client *)

(** X10: without a configured client, [generate_notes] and [generate_quiz]
    on a stored material and [chat_with_tutor] on any request fail with
    status 500 and the detail [Gemini API not configured]; the world stays
    as it was. *)
Theorem generation_needs_a_configured_client json_loads str w :
  (forall material_id m,
      lecture_materials w !! material_id = Some m ->
      generate_notes None str material_id w
      = (Raise (HTTPException 500 "Gemini API not configured"), w))
  /\ (forall request m,
        lecture_materials w !! QuizRequest.material_id request = Some m ->
        generate_quiz None json_loads str request w
        = (Raise (HTTPException 500 "Gemini API not configured"), w))
  /\ (forall request,
        chat_with_tutor None str request w
        = (Raise (HTTPException 500 "Gemini API not configured"), w)).
Proof.
  split; [|split].
  - intros material_id m Hm. unfold generate_notes, bind.
    by rewrite (contains_present _ _ _ Hm).
  - intros request m Hm. unfold generate_quiz, bind.
    by rewrite (contains_present _ _ _ Hm).
  - done.
Qed.

(** X11: for an id that is not in the store [generate_quiz] fails with
    status 404 and leaves the world as it was, whether or not a client is
    configured: no prompt is sent. *)
Theorem generate_quiz_unknown_material model json_loads str request w :
  lecture_materials w !! QuizRequest.material_id request = None ->
  generate_quiz model json_loads str request w
  = (Raise (HTTPException 404 "Material not found"), w).
Proof.
  intros Hm. unfold generate_quiz, bind. by rewrite (contains_absent _ _ Hm).
Qed.

(** X12: when the material is stored and the client answers,
    [generate_notes] sends the notes prompt built from the content, returns
    the answer unchanged as the notes with status [success], and stores it
    as the notes of the material. *)
Theorem generate_notes_stores_the_answer model str material_id w m client notes :
  lecture_materials w !! material_id = Some m ->
  model = Some client ->
  client (notes_prompt (Material.content m)) = inr notes ->
  generate_notes model str material_id w =
  (Return (JObj [("status", JStr "success"); ("notes", JStr notes)]),
   mkWorld (<[material_id := Material.mk (Material.filename m) (Material.content m)
                                          (Some notes) (Material.quiz m)]>
              (lecture_materials w))
           (notes_prompt (Material.content m) :: prompts_sent w)).
Proof.
  intros Hm Hmodel Hclient.
  by rewrite (generate_notes_run model str _ _ _ _ Hm Hmodel), Hclient.
Qed.

(** X13: when the client raises, [generate_notes], [generate_quiz] and
    [chat_with_tutor] fail with status 500 and a detail that ends with the
    text of the exception; the prompt was sent once, and the materials are
    as they were. *)
Theorem client_failure_is_reported model json_loads str w client e :
  model = Some client ->
  (forall material_id m,
      lecture_materials w !! material_id = Some m ->
      client (notes_prompt (Material.content m)) = inl e ->
      generate_notes model str material_id w =
      (Raise (HTTPException 500 ("Error generating notes: " +:+ str e)),
       mkWorld (lecture_materials w) (notes_prompt (Material.content m) :: prompts_sent w)))
  /\ (forall request m,
        lecture_materials w !! QuizRequest.material_id request = Some m ->
        client (quiz_prompt (QuizRequest.num_questions request) (Material.content m)) = inl e ->
        generate_quiz model json_loads str request w =
        (Raise (HTTPException 500 ("Error generating quiz: " +:+ str e)),
         mkWorld (lecture_materials w)
                 (quiz_prompt (QuizRequest.num_questions request) (Material.content m)
                  :: prompts_sent w)))
  /\ (forall request context,
        chat_context (ChatRequest.material_id request) w = (Return context, w) ->
        client (chat_prompt context (ChatRequest.message request)) = inl e ->
        chat_with_tutor model str request w =
        (Raise (HTTPException 500 ("Error chatting with tutor: " +:+ str e)),
         mkWorld (lecture_materials w)
                 (chat_prompt context (ChatRequest.message request) :: prompts_sent w))).
Proof.
  intros Hmodel. split; [|split].
  - intros material_id m Hm Hclient.
    by rewrite (generate_notes_run model str _ _ _ _ Hm Hmodel), Hclient.
  - intros request m Hm Hclient.
    by apply (generate_quiz_client_raises model json_loads str _ _ m client).
  - intros request context Hcontext Hclient.
    by rewrite (chat_with_tutor_run model str _ _ _ _ Hmodel Hcontext), Hclient.
Qed.

(** ** Prompts and chat *)

(** X14: the notes prompt and the quiz prompt read only the first 4000
    characters of the content, the chat context only the first 3000: what
    stands behind them changes nothing. *)
Theorem prompts_read_a_bounded_prefix content more :
  ((4000 <= String.length content)%nat ->
   notes_prompt (content +:+ more) = notes_prompt content
   /\ forall num_questions,
        quiz_prompt num_questions (content +:+ more) = quiz_prompt num_questions content)
  /\ ((3000 <= String.length content)%nat ->
      material_context (content +:+ more) = material_context content).
Proof.
  split.
  - intros Hlen. split; [|intros num_questions].
    + unfold notes_prompt. by rewrite slice_to_app.
    + unfold quiz_prompt. by rewrite slice_to_app.
  - intros Hlen. unfold material_context. by rewrite slice_to_app.
Qed.

(** X15: a chat request that names a stored material by a non-empty id is
    answered from the prompt that embeds the context of that material; the
    answer of the client is returned with status [success] and the
    materials stay as they were. *)
Theorem chat_with_stored_material model str message id w m client answer :
  lecture_materials w !! id = Some m ->
  id <> "" ->
  model = Some client ->
  client (chat_prompt (material_context (Material.content m)) message) = inr answer ->
  chat_with_tutor model str (ChatRequest.mk message (Some id)) w =
  (Return (JObj [("status", JStr "success"); ("response", JStr answer)]),
   mkWorld (lecture_materials w)
           (chat_prompt (material_context (Material.content m)) message :: prompts_sent w)).
Proof.
  intros Hm Hid Hmodel Hclient.
  assert (chat_context (Some id) w
          = (Return (material_context (Material.content m)), w)) as Hcontext.
  { rewrite chat_context_run, Hm. by destruct id. }
  rewrite (chat_with_tutor_run model str (ChatRequest.mk message (Some id)) _ _ _
             Hmodel Hcontext).
  cbn [ChatRequest.message]. by rewrite Hclient.
Qed.

(** X16: the empty string as material id counts as no material id, also
    in a world that holds a record under the empty id. *)
Theorem chat_takes_empty_id_for_none model str message w :
  chat_with_tutor model str (ChatRequest.mk message (Some "")) w
  = chat_with_tutor model str (ChatRequest.mk message None) w.
Proof.
  assert (chat_context (Some "") w = chat_context None w) as Hcontext.
  { rewrite !chat_context_run. by destruct (lecture_materials w !! ""). }
  unfold chat_with_tutor. destruct model as [client|]; [|done].
  unfold try_except, bind. cbn [ChatRequest.material_id]. by rewrite Hcontext.
Qed.

(** ** One request after another *)

(** X17: right after an upload that succeeded, [get_material] on the id it
    returned shows the uploaded file name, the preview of the page lines,
    and neither notes nor quiz. *)
Theorem upload_then_get_material PdfReader str file w payload w' :
  upload_pdf PdfReader str file w = (Return payload, w') ->
  exists texts,
    PdfReader (UploadFile.read file) = inr (inr <$> texts)
    /\ payload = JObj [("status", JStr "success");
                       ("message", JStr "PDF uploaded successfully");
                       ("material_id", JStr (derive_material_id (UploadFile.filename file)));
                       ("filename", JStr (UploadFile.filename file))]
    /\ get_material (derive_material_id (UploadFile.filename file)) w' =
       (Return (JObj [("material_id", JStr (derive_material_id (UploadFile.filename file)));
                      ("filename", JStr (UploadFile.filename file));
                      ("content_preview",
                       JStr (slice_to 500 (Spec.page_lines texts) +:+ "..."));
                      ("notes", JNull);
                      ("quiz", JNull)]),
        w').
Proof.
  intros (texts & _ & Hpages & _ & -> & ->)%upload_pdf_returns.
  exists texts. split; [done|]. split; [done|].
  by rewrite (get_material_stored _ _
                (Material.mk (UploadFile.filename file) (Spec.page_lines texts) None JNull)
                (lookup_insert_eq _ _ _) eq_refl).
Qed.


(** X19: [list_materials] changes nothing and answers with one entry for
    each stored record and no other: the id, the file name, whether notes
    are set and whether a quiz is set, and nothing of the content. *)
Theorem list_materials_summarises_every_record w :
  exists entries,
    list_materials w = (Return (JObj [("materials", JArr entries)]), w)
    /\ length entries = size (lecture_materials w)
    /\ forall entry,
         entry ∈ entries <->
         exists id m,
           lecture_materials w !! id = Some m
           /\ entry = JObj [("material_id", JStr id);
                            ("filename", JStr (Material.filename m));
                            ("has_notes", JBool (bool_decide (Material.notes m <> None)));
                            ("has_quiz", JBool (is_not_None (Material.quiz m)))].
Proof.
  exists (summary <$> map_to_list (lecture_materials w)).
  split; [apply list_materials_run|]. split.
  - by rewrite length_fmap, length_map_to_list.
  - intros entry. rewrite list_elem_of_fmap. split.
    + intros ([id m] & -> & Hm%elem_of_map_to_list). by exists id, m.
    + intros (id & m & Hm%elem_of_map_to_list & ->). by exists (id, m).
Qed.

(** ** What every request keeps to *)


(** X21: a request sends at most one prompt to the client, however it
    ends; an upload, a listing and [get_material] send none. *)
Theorem at_most_one_prompt_per_request model json_loads PdfReader str r w :
  (prompts_sent (handle model json_loads PdfReader str r w).2 = prompts_sent w
   \/ exists prompt,
       prompts_sent (handle model json_loads PdfReader str r w).2
       = prompt :: prompts_sent w)
  /\ match r with
     | Upload _ | ListMaterials | GetMaterial _ =>
         prompts_sent (handle model json_loads PdfReader str r w).2 = prompts_sent w
     | _ => True
     end.
Proof.
  split.
  - destruct (handle_effect model json_loads PdfReader str r w)
      as [[_ [H|[_ H]]]|[(file & text & _ & _ & _ & _ & H)
                        |[(id0 & m & notes & prompt & _ & _ & _ & _ & H)
                         |(request & m & quiz & prompt & _ & _ & _ & _ & H)]]]; eauto.
  - destruct r as [file| | | | |material_id]; cbn [handle]; try done.
    + destruct (upload_pdf PdfReader str file w) as [[payload|cause] w'] eqn:Hrun.
      * by apply upload_pdf_returns in Hrun as (texts & _ & _ & _ & _ & ->).
      * pose proof (upload_pdf_fails PdfReader str file w cause) as H.
        rewrite Hrun in H. by destruct (H eq_refl) as [-> _].
    + by rewrite list_materials_world.
    + by rewrite get_material_world.
Qed.

(** ** Cleaning the quiz answer *)

Lemma startswith_app_app p s q : startswith (p +:+ s) (p +:+ q) = startswith s q.
Proof.
  induction p as [|c p IH]; [done|].
  by rewrite !app_cons, startswith_cons, decide_True.
Qed.

(** X22: an answer that does not begin with three backquotes is parsed as
    it is; an opening fence, labelled [json] or bare, is taken off also
    when no closing fence follows, and what stands behind it is stripped of
    white space. *)
Theorem clean_quiz_text_on_open_fences :
  (forall text, startswith text fence = false -> clean_quiz_text text = text)
  /\ (forall rest,
        find rest fence = None -> clean_quiz_text (json_fence +:+ rest) = strip rest)
  /\ (forall rest,
        find rest fence = None ->
        startswith rest "json" = false ->
        clean_quiz_text (fence +:+ rest) = strip rest).
Proof.
  split; [|split].
  - intros text Hfence. unfold clean_quiz_text. rewrite Hfence.
    destruct (startswith text json_fence) eqn:E; [|done].
    apply startswith_json_fence in E. congruence.
  - intros rest Hrest. unfold clean_quiz_text. rewrite startswith_app_self.
    change (replace ?s json_fence ?n) with (replace_scan json_fence n 0 s).
    change (replace ?s fence ?n) with (replace_scan fence n 0 s).
    rewrite replace_scan_here, app_empty_l by done.
    rewrite (replace_scan_absent json_fence) by by apply find_json_fence_absent.
    by rewrite replace_scan_absent.
  - intros rest Hrest Hlabel. unfold clean_quiz_text.
    change json_fence with (fence +:+ "json") at 1.
    rewrite startswith_app_app, Hlabel, startswith_app_self.
    change (replace ?s fence ?n) with (replace_scan fence n 0 s).
    rewrite replace_scan_here, app_empty_l by done.
    by rewrite replace_scan_absent.
Qed.

(** X23: the text handed to [json.loads], which is also the [raw_text] of
    an answer it refuses, has no white space at either end. *)
Theorem cleaned_quiz_text_is_stripped text :
  strip (clean_quiz_text (strip text)) = clean_quiz_text (strip text).
Proof.
  unfold clean_quiz_text.
  destruct (startswith (strip text) json_fence); [apply strip_idem|].
  destruct (startswith (strip text) fence); apply strip_idem.
Qed.

(** *** No fence is left *)

Section FenceRemoval.

Implicit Types (s t p : string) (c : ascii).

Local Abbreviation unfenced := (replace_scan fence "" 0).

Lemma unfenced_cons c s :
  unfenced (String c s)
  = if startswith (String c s) fence then replace_scan fence "" 2 s
    else String c (unfenced s).
Proof. rewrite replace_scan_at_start. by destruct (startswith _ _). Qed.

Lemma startswith_fence_parts s :
  startswith s fence = true ->
  startswith s "`" = true /\ startswith s "``" = true.
Proof.
  unfold fence. destruct s as [|c1 [|c2 [|c3 s]]]; rewrite ?startswith_cons;
    repeat case_decide; rewrite ?startswith_empty; done.
Qed.

Lemma unfenced_head_1 s : startswith (unfenced s) "`" = true -> startswith s "`" = true.
Proof.
  destruct s as [|c s]; [done|]. rewrite unfenced_cons.
  destruct (startswith (String c s) fence) eqn:E.
  - intros _. by apply startswith_fence_parts in E as [? _].
  - rewrite !startswith_cons, !startswith_empty. by case_decide.
Qed.

Lemma unfenced_head_2 s : startswith (unfenced s) "``" = true -> startswith s "``" = true.
Proof.
  destruct s as [|c s]; [done|]. rewrite unfenced_cons.
  destruct (startswith (String c s) fence) eqn:E.
  - intros _. by apply startswith_fence_parts in E as [_ ?].
  - rewrite !startswith_cons. case_decide; [|done]. apply unfenced_head_1.
Qed.

Lemma unfenced_head_3 c s :
  startswith (String c (unfenced s)) fence = true -> startswith (String c s) fence = true.
Proof.
  unfold fence. rewrite !startswith_cons. case_decide; [|done]. apply unfenced_head_2.
Qed.

(** Whatever [replace] with the fence for [old] and nothing for [new]
    gives holds no fence. *)
Lemma replace_scan_fence_free k s : find (replace_scan fence "" k s) fence = None.
Proof.
  revert k. induction s as [|c s IH]; intros k; [done|].
  destruct k as [|k]; [|apply IH].
  rewrite unfenced_cons. destruct (startswith (String c s) fence) eqn:E; [apply IH|].
  cbn [find]. rewrite IH.
  destruct (startswith (String c (unfenced s)) fence) eqn:E'; [|done].
  apply unfenced_head_3 in E'. congruence.
Qed.

Lemma startswith_app_l s t p : startswith s p = true -> startswith (s +:+ t) p = true.
Proof.
  revert s. induction p as [|d p IH]; intros s; [by rewrite !startswith_empty|].
  destruct s as [|c s]; [done|]. rewrite app_cons, !startswith_cons.
  case_decide; [apply IH|done].
Qed.

Lemma find_app_absent s t p : p <> "" -> find (s +:+ t) p = None -> find s p = None.
Proof.
  intros Hp. induction s as [|c s IH].
  - intros _. by destruct p.
  - rewrite app_cons. intros [Hc Hs]%find_cons_None. cbn [find]. rewrite (IH Hs).
    destruct (startswith (String c s) p) eqn:E; [|done].
    apply (startswith_app_l _ t) in E. rewrite app_cons in E. congruence.
Qed.

Lemma find_lstrip_absent s p : find s p = None -> find (lstrip s) p = None.
Proof.
  induction s as [|c s IH]; [done|]. intros H. cbn [lstrip].
  destruct (isspace c); [|done]. apply IH. by apply find_cons_None in H as [_ ?].
Qed.

Lemma rstrip_is_prefix s : exists t, s = rstrip s +:+ t.
Proof.
  induction s as [|c s [t IH]]; [by exists ""|]. cbn [rstrip].
  destruct (rstrip s) as [|d r] eqn:E.
  - destruct (isspace c); [by exists (String c s)|]. exists s. done.
  - exists t. rewrite app_cons. by rewrite <- IH.
Qed.

Lemma find_strip_absent s p : p <> "" -> find s p = None -> find (strip s) p = None.
Proof.
  intros Hp Hs%find_lstrip_absent. unfold strip.
  destruct (rstrip_is_prefix (lstrip s)) as [t E]. rewrite E in Hs.
  by apply find_app_absent in Hs.
Qed.

End FenceRemoval.

(** X24: once an answer that begins with three backquotes is cleaned, no
    three backquotes in a row are left anywhere in it, whether they stood at
    its ends or inside. *)
Theorem cleaned_quiz_text_has_no_fence text :
  startswith text fence = true -> find (clean_quiz_text text) fence = None.
Proof.
  intros Hfence. unfold clean_quiz_text. rewrite Hfence.
  change (replace ?s fence ?n) with (replace_scan fence n 0 s).
  destruct (startswith text json_fence);
    apply find_strip_absent; try done; apply replace_scan_fence_free.
Qed.

(** ** The further properties at concrete requests *)

Lemma upload_refuses_other_names_witness :
  upload_pdf (Sample.one_page "Hello world") Sample.str
             (UploadFile.mk "notes.txt" []) Sample.one_material
  = (Raise (HTTPException 400 "Only PDF files are allowed"), Sample.one_material).
Proof.
  exact (proj1 (upload_refuses_other_names (Sample.one_page "Hello world") Sample.str)
               (UploadFile.mk "notes.txt" []) Sample.one_material eq_refl).
Defined.

Lemma upload_reports_reader_failure_witness :
  upload_pdf Scenario.broken Sample.str Sample.notes_file Sample.one_material
  = (Raise (HTTPException 500 "Error processing PDF: EOF marker not found"),
     Sample.one_material).
Proof.
  exact (upload_reports_reader_failure
           Scenario.broken Sample.str Sample.notes_file Sample.one_material
           (Error "EOF marker not found") eq_refl (or_introl eq_refl)).
Defined.

Lemma failed_upload_changes_nothing_witness :
  (upload_pdf Scenario.broken Sample.str Sample.notes_file Sample.one_material).2
  = Sample.one_material.
Proof.
  exact (proj1 (failed_upload_changes_nothing
                  Scenario.broken Sample.str Sample.notes_file Sample.one_material
                  (HTTPException 500 "Error processing PDF: EOF marker not found")
                  eq_refl)).
Defined.

Lemma upload_replaces_record_witness :
  exists texts,
    Sample.one_page "Second edition" [] = inr (inr <$> texts)
    /\ lecture_materials
         (upload_pdf (Sample.one_page "Second edition") Sample.str Sample.notes_file
                     Scenario.with_notes).2
       !! "x"
       = Some (Material.mk "x.pdf" (Spec.page_lines texts) None JNull).
Proof.
  exact (proj1 (upload_replaces_record
                  (Sample.one_page "Second edition") Sample.str Sample.notes_file
                  Scenario.with_notes _ _ eq_refl)).
Defined.

Lemma ids_confuse_spaces_and_underscores_witness :
  exists text,
    lecture_materials
      (upload_pdf (Sample.one_page "Hello world") Sample.str
                  (UploadFile.mk "a_b.pdf" []) initial_world).2
    !! derive_material_id "a b.pdf"
    = Some (Material.mk "a_b.pdf" text None JNull).
Proof.
  exact (proj2 (proj2 ids_confuse_spaces_and_underscores)
               (Sample.one_page "Hello world") Sample.str "a b.pdf"
               (UploadFile.mk "a_b.pdf" []) initial_world _ _ eq_refl eq_refl).
Defined.

Lemma stored_records_are_keyed_by_filename_witness :
  keyed_by_filename
    (handle None Sample.json_loads (Sample.one_page "Hello world") Sample.str
            (Upload Sample.notes_file) initial_world).2.
Proof.
  apply stored_records_are_keyed_by_filename.
  apply reachable_handle, reachable_initial.
Defined.

Lemma records_stay_and_keep_their_content_witness :
  exists m',
    lecture_materials
      (handle (Some (Sample.answering "notes")) Sample.json_loads
              (Sample.one_page "Hello world") Sample.str
              (GenerateNotes "x") Sample.one_material).2
    !! "x" = Some m'
    /\ ((forall file, GenerateNotes "x" <> Upload file) ->
        Material.filename m' = "x.pdf" /\ Material.content m' = "Hello world" +:+ nl).
Proof.
  exact (records_stay_and_keep_their_content
           (Some (Sample.answering "notes")) Sample.json_loads
           (Sample.one_page "Hello world") Sample.str
           (GenerateNotes "x") Sample.one_material "x"
           (Material.mk "x.pdf" ("Hello world" +:+ nl) None JNull) eq_refl).
Defined.

Lemma notes_and_quiz_are_set_apart_witness :
  exists m',
    lecture_materials
      (generate_quiz (Some (Sample.answering "[]")) Sample.json_loads Sample.str
                     (QuizRequest.mk "x" 5) Scenario.with_notes).2
    !! "x" = Some m'
    /\ Material.filename m' = "x.pdf"
    /\ Material.content m' = "Hello world" +:+ nl
    /\ Material.notes m' = Some "old notes"
    /\ ("x" <> "x" -> m' = Material.mk "x.pdf" ("Hello world" +:+ nl) (Some "old notes") JNull).
Proof.
  exact (proj2 (notes_and_quiz_are_set_apart
                  (Some (Sample.answering "[]")) Sample.json_loads Sample.str
                  Scenario.with_notes "x"
                  (Material.mk "x.pdf" ("Hello world" +:+ nl) (Some "old notes") JNull)
                  eq_refl)
               (QuizRequest.mk "x" 5)).
Defined.

Lemma nothing_is_generated_without_a_key_witness :
  nothing_generated
    (handle None Sample.json_loads (Sample.one_page "Hello world") Sample.str
            (GenerateNotes "x")
            (handle None Sample.json_loads (Sample.one_page "Hello world") Sample.str
                    (Upload Sample.notes_file) initial_world).2).2.
Proof.
  apply nothing_is_generated_without_a_key.
  do 2 apply unconfigured_handle. apply unconfigured_initial.
Defined.

Lemma generation_needs_a_configured_client_witness :
  generate_notes None Sample.str "x" Sample.one_material
  = (Raise (HTTPException 500 "Gemini API not configured"), Sample.one_material)
  /\ generate_quiz None Sample.json_loads Sample.str (QuizRequest.mk "x" 5) Sample.one_material
     = (Raise (HTTPException 500 "Gemini API not configured"), Sample.one_material).
Proof.
  destruct (generation_needs_a_configured_client
              Sample.json_loads Sample.str Sample.one_material) as (Hnotes & Hquiz & _).
  split.
  - exact (Hnotes "x" _ eq_refl).
  - exact (Hquiz (QuizRequest.mk "x" 5) _ eq_refl).
Defined.

Lemma generate_quiz_unknown_material_witness :
  generate_quiz (Some (Sample.answering "[]")) Sample.json_loads Sample.str
                (QuizRequest.mk "y" 5) Sample.one_material
  = (Raise (HTTPException 404 "Material not found"), Sample.one_material).
Proof.
  exact (generate_quiz_unknown_material
           (Some (Sample.answering "[]")) Sample.json_loads Sample.str
           (QuizRequest.mk "y" 5) Sample.one_material eq_refl).
Defined.

Lemma generate_notes_stores_the_answer_witness :
  generate_notes (Some (Sample.answering "# Notes")) Sample.str "x" Sample.one_material =
  (Return (JObj [("status", JStr "success"); ("notes", JStr "# Notes")]),
   mkWorld (<["x" := Material.mk "x.pdf" ("Hello world" +:+ nl) (Some "# Notes") JNull]>
              (lecture_materials Sample.one_material))
           [notes_prompt ("Hello world" +:+ nl)]).
Proof.
  exact (generate_notes_stores_the_answer
           (Some (Sample.answering "# Notes")) Sample.str "x" Sample.one_material
           (Material.mk "x.pdf" ("Hello world" +:+ nl) None JNull)
           (Sample.answering "# Notes") "# Notes" eq_refl eq_refl eq_refl).
Defined.

Lemma client_failure_is_reported_witness :
  generate_notes (Some Scenario.failing) Sample.str "x" Sample.one_material =
  (Raise (HTTPException 500 "Error generating notes: quota exceeded"),
   mkWorld (lecture_materials Sample.one_material) [notes_prompt ("Hello world" +:+ nl)]).
Proof.
  exact (proj1 (client_failure_is_reported
                  (Some Scenario.failing) Sample.json_loads Sample.str Sample.one_material
                  Scenario.failing (Error "quota exceeded") eq_refl)
               "x" (Material.mk "x.pdf" ("Hello world" +:+ nl) None JNull)
               eq_refl eq_refl).
Defined.

Lemma prompts_read_a_bounded_prefix_witness :
  notes_prompt (Scenario.letters 4000 +:+ "b") = notes_prompt (Scenario.letters 4000)
  /\ material_context (Scenario.letters 3000 +:+ "b") = material_context (Scenario.letters 3000).
Proof.
  split.
  - apply (proj1 (prompts_read_a_bounded_prefix (Scenario.letters 4000) "b")).
    apply Nat.leb_le. vm_compute. reflexivity.
  - apply (proj2 (prompts_read_a_bounded_prefix (Scenario.letters 3000) "b")).
    apply Nat.leb_le. vm_compute. reflexivity.
Defined.

Lemma chat_with_stored_material_witness :
  chat_with_tutor (Some (Sample.answering "A greeting.")) Sample.str
                  (ChatRequest.mk "What is it?" (Some "x")) Sample.one_material =
  (Return (JObj [("status", JStr "success"); ("response", JStr "A greeting.")]),
   mkWorld (lecture_materials Sample.one_material)
           [chat_prompt (material_context ("Hello world" +:+ nl)) "What is it?"]).
Proof.
  refine (chat_with_stored_material
            (Some (Sample.answering "A greeting.")) Sample.str "What is it?" "x"
            Sample.one_material (Material.mk "x.pdf" ("Hello world" +:+ nl) None JNull)
            (Sample.answering "A greeting.") "A greeting." eq_refl _ eq_refl eq_refl).
  discriminate.
Defined.

Lemma upload_then_get_material_witness :
  exists texts,
    Sample.one_page "Hello world" [] = inr (inr <$> texts)
    /\ get_material "x" Sample.one_material =
       (Return (JObj [("material_id", JStr "x");
                      ("filename", JStr "x.pdf");
                      ("content_preview",
                       JStr (slice_to 500 (Spec.page_lines texts) +:+ "..."));
                      ("notes", JNull);
                      ("quiz", JNull)]),
        Sample.one_material).
Proof.
  destruct (upload_then_get_material
              (Sample.one_page "Hello world") Sample.str Sample.notes_file initial_world
              (JObj [("status", JStr "success");
                     ("message", JStr "PDF uploaded successfully");
                     ("material_id", JStr "x");
                     ("filename", JStr "x.pdf")])
              Sample.one_material eq_refl) as (texts & Hpages & _ & Hget).
  exists texts. split; [exact Hpages|exact Hget].
Defined.



Lemma clean_quiz_text_on_open_fences_witness :
  clean_quiz_text "[]" = "[]"
  /\ clean_quiz_text (json_fence +:+ nl +:+ "[]") = strip (nl +:+ "[]")
  /\ clean_quiz_text (fence +:+ "python" +:+ nl +:+ "[]") = strip ("python" +:+ nl +:+ "[]").
Proof.
  destruct clean_quiz_text_on_open_fences as (Hplain & Hjson & Hbare).
  split; [|split].
  - exact (Hplain "[]" eq_refl).
  - exact (Hjson (nl +:+ "[]") eq_refl).
  - exact (Hbare ("python" +:+ nl +:+ "[]") eq_refl eq_refl).
Defined.

Lemma cleaned_quiz_text_has_no_fence_witness :
  find (clean_quiz_text (json_fence +:+ "[" +:+ dq +:+ "a```b" +:+ dq +:+ "]" +:+ fence)) fence
  = None.
Proof.
  exact (cleaned_quiz_text_has_no_fence
           (json_fence +:+ "[" +:+ dq +:+ "a```b" +:+ dq +:+ "]" +:+ fence) eq_refl).
Defined.
